(** * LitmusClassificationMultiModel: normalisation, fitting and prediction

    A shallow embedding of [user_data/freqaimodels/LitmusClassificationMultiModel.py].

    - Numbers are IEEE 754 binary64 values, as in the pandas frames the plugin
      receives: the Standard Library's executable specification [spec_float],
      at precision 53 and maximal exponent 1024, rounding to nearest even.
    - A [DataFrame] is the ordered list of its labelled columns; a [Series]
      is an ordered list of labelled scalars.
    - Python dictionaries ([data_dictionary], [dk.data]) are finite maps with
      string keys.
    - A method is a computation over the objects it can mutate (the data
      kitchen, the console), returning a value or raising. *)

From Stdlib Require Import ZArith QArith Lia Lqa Bool.
From Stdlib Require Import Floats.SpecFloat.
From stdpp Require Import base option list strings gmap sorting pretty.

Set Default Proof Using "Type".
Local Open Scope Z_scope.

(* ===================================================================== *)
(** ** binary64 *)
(* ===================================================================== *)

Module F64.

Definition prec : Z := 53.
Definition emax : Z := 1024.

Definition float64 : Type := spec_float.

Definition nan : float64 := S754_nan.

(** [float(z)] for a Python integer [z], and [m * 2**e]. *)
Definition of_Z (z : Z) : float64 := binary_normalize prec emax z 0 false.
Definition ldexp (m e : Z) : float64 := binary_normalize prec emax m e false.

Definition sub : float64 → float64 → float64 := SFsub prec emax.
Definition mul : float64 → float64 → float64 := SFmul prec emax.
Definition div : float64 → float64 → float64 := SFdiv prec emax.
Definition ltb : float64 → float64 → bool := SFltb.
Definition eqb : float64 → float64 → bool := SFeqb.

(** The values that are binary64 numbers: a finite one has its mantissa
    and exponent in canonical form and within range. *)
Definition valid (x : float64) : bool := valid_binary prec emax x.

Definition is_nan (x : float64) : bool :=
  match x with S754_nan => true | _ => false end.
Definition is_zero (x : float64) : bool :=
  match x with S754_zero _ => true | _ => false end.
(** Neither NaN nor an infinity ([math.isfinite]). *)
Definition is_finite (x : float64) : bool :=
  match x with S754_zero _ | S754_finite _ _ _ => true | _ => false end.

Global Instance float64_eq_dec : EqDecision float64.
Proof. solve_decision. Defined.

End F64.

Abbreviation float64 := F64.float64.

(* ===================================================================== *)
(** ** The affine transform, cell by cell *)
(* ===================================================================== *)

(** The arithmetic the expression [2 * (v - min) / (max - min) - 1] needs.
    The plugin evaluates it in binary64; the exact reading over the
    rationals is the second instance. *)
Class Arith (F : Type) := {
  lit : Z → F;
  minus : F → F → F;
  times : F → F → F;
  divide : F → F → F;
}.

#[global] Instance arith_float64 : Arith float64 := {|
  lit := F64.of_Z; minus := F64.sub; times := F64.mul; divide := F64.div |}.

#[global] Instance arith_Q : Arith Q := {|
  lit := inject_Z; minus := Qminus; times := Qmult; divide := Qdiv |}.

(** Python parses [2 * d / r - 1] as [((2 * d) / r) - 1]. *)
Definition scale {F} `{Arith F} (mn mx v : F) : F :=
  minus (divide (times (lit 2) (minus v mn)) (minus mx mn)) (lit 1).

(* ===================================================================== *)
(** ** pandas: frames, series, reductions and aligned arithmetic *)
(* ===================================================================== *)

Module Pandas.

Abbreviation Series := (list (string * float64)).
Abbreviation DataFrame := (list (string * list float64)).

Definition keys {A} (l : list (string * A)) : list string := l.*1.

(** Rows of a frame: the common length of its columns. *)
Definition nrows (df : DataFrame) : nat :=
  match df with
  | [] => 0%nat
  | (_, xs) :: _ => length xs
  end.

(** [s[item]] and [df[item]]: the first entry carrying the label. *)
Fixpoint getitem {A} (l : list (string * A)) (item : string) : option A :=
  match l with
  | [] => None
  | (k, a) :: r => if decide (k = item) then Some a else getitem r item
  end.

(** *** Reductions ([skipna=True], the default)

    NaN cells are skipped; a column with no other cell reduces to NaN. *)
Fixpoint nanmax (xs : list float64) : option float64 :=
  match xs with
  | [] => None
  | x :: r =>
      if F64.is_nan x then nanmax r
      else Some (match nanmax r with
                 | None => x
                 | Some m => if F64.ltb x m then m else x
                 end)
  end.

Fixpoint nanmin (xs : list float64) : option float64 :=
  match xs with
  | [] => None
  | x :: r =>
      if F64.is_nan x then nanmin r
      else Some (match nanmin r with
                 | None => x
                 | Some m => if F64.ltb m x then m else x
                 end)
  end.

Definition col_max (xs : list float64) : float64 := default F64.nan (nanmax xs).
Definition col_min (xs : list float64) : float64 := default F64.nan (nanmin xs).

(** [df.max()] and [df.min()]: one scalar per column, labelled as the column. *)
Definition max (df : DataFrame) : Series := (λ c : string * list float64, (c.1, col_max c.2)) <$> df.
Definition min (df : DataFrame) : Series := (λ c : string * list float64, (c.1, col_min c.2)) <$> df.

(** *** Label alignment

    Operands with the same labels in the same order are combined position
    by position. Otherwise both are reindexed to the sorted union of their
    labels, a label missing on one side contributing NaN. *)
Fixpoint dedup_labels (l : list string) : list string :=
  match l with
  | [] => []
  | a :: r => if decide (a ∈ r) then dedup_labels r else a :: dedup_labels r
  end.

Definition union_labels (l r : list string) : list string :=
  merge_sort String.le (dedup_labels (l ++ r)).

(** [left op right] for two series. *)
Definition series_op (op : float64 → float64 → float64) (l r : Series) : Series :=
  if decide (keys l = keys r)
  then zip_with (λ a b, (a.1, op a.2 b.2)) l r
  else (λ k, (k, op (default F64.nan (getitem l k))
                    (default F64.nan (getitem r k)))) <$> union_labels (keys l) (keys r).

(** [df op s]: the series is matched against the columns of the frame and
    broadcast down the rows. *)
Definition frame_op_series (op : float64 → float64 → float64)
    (df : DataFrame) (s : Series) : DataFrame :=
  if decide (keys df = keys s)
  then zip_with (λ (c : string * list float64) (a : string * float64),
                   (c.1, (λ v, op v a.2) <$> c.2)) df s
  else (λ k, (k, (λ v, op v (default F64.nan (getitem s k)))
                   <$> default (replicate (nrows df) F64.nan) (getitem df k)))
         <$> union_labels (keys df) (keys s).

(** [df op x] and [x op df] for a scalar [x]. *)
Definition frame_map (f : float64 → float64) (df : DataFrame) : DataFrame :=
  (λ c : string * list float64, (c.1, f <$> c.2)) <$> df.

Definition sub_series := frame_op_series F64.sub.
Definition div_series := frame_op_series F64.div.
Definition series_sub := series_op F64.sub.
Definition rmul_scalar (x : float64) := frame_map (F64.mul x).
Definition sub_scalar (df : DataFrame) (x : float64) := frame_map (λ v, F64.sub v x) df.

End Pandas.

Abbreviation DataFrame := Pandas.DataFrame.
Abbreviation Series := Pandas.Series.

(* ===================================================================== *)
(** ** Python objects, exceptions and computations *)
(* ===================================================================== *)

(** The objects stored in the dictionaries the plugin handles: feature
    frames, label frames (discrete classes), weight arrays and scalars. *)
Inductive value :=
  | Frame (df : DataFrame)
  | Labels (l : list (string * list string))
  | Weights (w : list float64)
  | Scalar (x : float64).

Abbreviation dict := (gmap string value).

Inductive exn :=
  | KeyError (key : string)
  | TypeError
  | ValueError
  | Propagated (origin : string).

Inductive result (A : Type) :=
  | Ok (a : A)
  | Raise (e : exn).
Arguments Ok {A} a.
Arguments Raise {A} e.

(** A two-dimensional numpy array: [ncols] is its second dimension, also
    when it has no row. *)
Record ndarray := { ncols : nat; rows : list (list float64) }.

(** The fields of the data kitchen the plugin reads or writes. *)
Record FreqaiDataKitchen := {
  training_features_list : list string;
  label_list : list string;
  data : dict;
  data_dictionary : dict;
  do_predict : list Z;
}.

(** What a method can change: the kitchen it is handed and the console. *)
Record World := { dk : FreqaiDataKitchen; stdout : list DataFrame }.

Definition Py (A : Type) : Type := World → World * result A.

#[global] Instance Py_ret : MRet Py := λ A a w, (w, Ok a).
#[global] Instance Py_bind : MBind Py := λ A B k m w,
  match m w with
  | (w', Ok a) => k a w'
  | (w', Raise e) => (w', Raise e)
  end.

Definition raise {A} (e : exn) : Py A := λ w, (w, Raise e).
Definition lift {A} (r : result A) : Py A := λ w, (w, r).
Definition gets {A} (f : FreqaiDataKitchen → A) : Py A := λ w, (w, Ok (f (dk w))).
Definition modify_dk (f : FreqaiDataKitchen → FreqaiDataKitchen) : Py unit :=
  λ w, ({| dk := f (dk w); stdout := stdout w |}, Ok tt).
Definition print (df : DataFrame) : Py unit :=
  λ w, ({| dk := dk w; stdout := stdout w ++ [df] |}, Ok tt).

(** [d[key]] *)
Definition subscript (d : dict) (key : string) : Py value :=
  match d !! key with
  | Some v => mret v
  | None => raise (KeyError key)
  end.

(** The feature entries hold frames; the frame arithmetic below is defined
    on frames only, any other object there ends the call. *)
Definition as_frame (v : value) : Py DataFrame :=
  match v with
  | Frame df => mret df
  | _ => raise TypeError
  end.

Definition as_scalar (v : value) : Py float64 :=
  match v with
  | Scalar x => mret x
  | _ => raise TypeError
  end.

(** [s[item]] on a series *)
Definition series_getitem (s : Series) (item : string) : Py float64 :=
  match Pandas.getitem s item with
  | Some x => mret x
  | None => raise (KeyError item)
  end.

(** [dk.data[key] = x] *)
Definition set_data (key : string) (v : value) : Py unit :=
  modify_dk (λ k, {| training_features_list := training_features_list k;
                     label_list := label_list k;
                     data := <[key := v]> (data k);
                     data_dictionary := data_dictionary k;
                     do_predict := do_predict k |}).

(** [dk.data_dictionary[key] = v] *)
Definition set_data_dictionary (key : string) (v : value) : Py unit :=
  modify_dk (λ k, {| training_features_list := training_features_list k;
                     label_list := label_list k;
                     data := data k;
                     data_dictionary := <[key := v]> (data_dictionary k);
                     do_predict := do_predict k |}).

(** [for item in items: body(item)] *)
Fixpoint for_each {A} (items : list A) (body : A → Py unit) : Py unit :=
  match items with
  | [] => mret tt
  | item :: rest => _ ← body item; for_each rest body
  end.

(** [DataFrame(array, columns=labels)]: the array's second dimension must
    match the labels; column [j] collects cell [j] of every row. *)
Definition column_of (a : ndarray) (j : nat) : list float64 :=
  (λ r, default F64.nan (r !! j)) <$> rows a.

Definition DataFrame_of_array (a : ndarray) (columns : list string) : result DataFrame :=
  if decide (ncols a = length columns)
  then Ok (imap (λ j c, (c, column_of a j)) columns)
  else Raise ValueError.

(* ===================================================================== *)
(** ** Collaborators *)
(* ===================================================================== *)

(** Keyword arguments of the classifier's constructor and of its [fit]. *)
Module CatBoost.

Record Params := {
  allow_writing_files : bool;
  loss_function : string;
  early_stopping_rounds : Z;
}.

Record FitCall := {
  X : value;
  y : value;
  sample_weight : value;
  eval_set : value * value;
}.

End CatBoost.

(** The gradient-boosting library and the host framework are not part of
    the plugin: the classifier is an opaque object, and the kitchen's
    methods and the inherited cleaning hook are computations on the world. *)
Class Host := {
  Classifier : Type;
  CatBoostClassifier : CatBoost.Params → Classifier;
  Classifier_fit : Classifier → CatBoost.FitCall → result Classifier;
  predict_proba : Classifier → value → result ndarray;
  classes_ : Classifier → list string;
  find_features : DataFrame → Py unit;
  filter_features : DataFrame → list string → list string → bool → Py (DataFrame * value);
  normalize_data_from_metadata : DataFrame → Py DataFrame;
  data_cleaning_predict : DataFrame → Py unit;
}.

(** Modelled from the spec: the kitchen's apply-from-stored-parameters
    operation ([normalize_data_from_metadata], which is not in this
    repository). Each column [c] of the new frame is transformed with the
    [(min, max)] read from the store under [c_min] and [c_max]; a column
    whose parameters are absent makes the call fail. *)
Fixpoint apply_stored_parameters (df : DataFrame) : Py DataFrame :=
  match df with
  | [] => mret []
  | (item, xs) :: rest =>
      store ← gets data;
      mn ← (v ← subscript store (item +:+ "_min"); as_scalar v);
      mx ← (v ← subscript store (item +:+ "_max"); as_scalar v);
      rest ← apply_stored_parameters rest;
      mret ((item, scale mn mx <$> xs) :: rest)
  end.

(* ===================================================================== *)
(** ** The plugin *)
(* ===================================================================== *)

Section LitmusClassificationMultiModel.

Context `{Host}.

(** The plugin instance: [self.model] is the classifier of the pair. *)
Record Self := { model : Classifier }.

(** *** return_values *)

Definition return_values (dataframe : DataFrame) : Py DataFrame :=
  mret dataframe.

(** *** fit *)

Definition fit (data_dictionary : dict) : Py Classifier :=
  (* Test on observations furthest in past *)
  X_test ← subscript data_dictionary "train_features";
  y_test ← subscript data_dictionary "train_labels";
  (* Train on most recent observations *)
  X_train ← subscript data_dictionary "test_features";
  y_train ← subscript data_dictionary "test_labels";
  sample_weight ← subscript data_dictionary "test_weights";
  let clf := CatBoostClassifier {| CatBoost.allow_writing_files := false;
                                   CatBoost.loss_function := "MultiClass";
                                   CatBoost.early_stopping_rounds := 10 |} in
  clf ← lift (Classifier_fit clf {| CatBoost.X := X_train;
                                    CatBoost.y := y_train;
                                    CatBoost.sample_weight := sample_weight;
                                    CatBoost.eval_set := (X_test, y_test) |});
  mret clf.

(** *** predict *)

Definition predict (self : Self) (unfiltered_dataframe : DataFrame) (first : bool)
    : Py (DataFrame * list Z) :=
  _ ← find_features unfiltered_dataframe;
  features ← gets training_features_list;
  filtered ← filter_features unfiltered_dataframe features [] false;
  filtered_dataframe ← normalize_data_from_metadata filtered.1;
  _ ← set_data_dictionary "prediction_features" (Frame filtered_dataframe);
  (* optional additional data cleaning/analysis *)
  _ ← data_cleaning_predict filtered_dataframe;
  dd ← gets data_dictionary;
  prediction_features ← subscript dd "prediction_features";
  predictions ← lift (predict_proba (model self) prediction_features);
  pred_df ← lift (DataFrame_of_array predictions (classes_ (model self)));
  _ ← print pred_df;
  mask ← gets do_predict;
  mret (pred_df, mask).

(** *** normalize_data *)

(** [2 * (df - train_min) / (train_max - train_min) - 1] *)
Definition standardize (df : DataFrame) (train_min train_max : Series) : DataFrame :=
  Pandas.sub_scalar
    (Pandas.div_series
       (Pandas.rmul_scalar (F64.of_Z 2) (Pandas.sub_series df train_min))
       (Pandas.series_sub train_max train_min))
    (F64.of_Z 1).

(** The dictionary is updated in place and handed back; the value
    returned here is that dictionary as the caller sees it on return. *)
Definition normalize_data (data_dictionary : dict) : Py dict :=
  train_max ← (v ← subscript data_dictionary "train_features";
               df ← as_frame v; mret (Pandas.max df));
  train_min ← (v ← subscript data_dictionary "train_features";
               df ← as_frame v; mret (Pandas.min df));
  v ← subscript data_dictionary "train_features";
  df ← as_frame v;
  let data_dictionary :=
    <["train_features" := Frame (standardize df train_min train_max)]> data_dictionary in
  v ← subscript data_dictionary "test_features";
  df ← as_frame v;
  let data_dictionary :=
    <["test_features" := Frame (standardize df train_min train_max)]> data_dictionary in
  _ ← for_each (Pandas.keys train_max) (λ item,
        x ← series_getitem train_max item;
        _ ← set_data (item +:+ "_max") (Scalar x);
        x ← series_getitem train_min item;
        set_data (item +:+ "_min") (Scalar x));
  mret data_dictionary.

End LitmusClassificationMultiModel.

(* ===================================================================== *)
(** ** Descriptions used in the statements *)
(* ===================================================================== *)

(** The kitchen with its store replaced. *)
Definition with_data (k : FreqaiDataKitchen) (store : dict) : FreqaiDataKitchen :=
  {| training_features_list := training_features_list k;
     label_list := label_list k;
     data := store;
     data_dictionary := data_dictionary k;
     do_predict := do_predict k |}.

(** The kitchen with its data dictionary replaced. *)
Definition with_data_dictionary (k : FreqaiDataKitchen) (dd : dict) : FreqaiDataKitchen :=
  {| training_features_list := training_features_list k;
     label_list := label_list k;
     data := data k;
     data_dictionary := dd;
     do_predict := do_predict k |}.

(** The store after the loop that records the parameters, in loop order. *)
Definition persist (train_max train_min : Series) (items : list string) (store : dict) : dict :=
  foldl (λ st item,
           <[item +:+ "_min" := Scalar (default F64.nan (Pandas.getitem train_min item))]>
             (<[item +:+ "_max" := Scalar (default F64.nan (Pandas.getitem train_max item))]> st))
        store items.

(** One column transformed with the parameters of a train column. *)
Definition scale_column (train_column : string * list float64)
    (column : string * list float64) : string * list float64 :=
  (column.1,
   scale (Pandas.col_min train_column.2) (Pandas.col_max train_column.2) <$> column.2).

(* ===================================================================== *)
(** ** A concrete training cycle *)
(* ===================================================================== *)

Module Example.

(** Train features [{a: [0, 10], b: [5, 5]}], one held-out row. *)
Definition train_features : DataFrame :=
  [("a", [F64.of_Z 0; F64.of_Z 10]); ("b", [F64.of_Z 5; F64.of_Z 5])].
Definition test_features : DataFrame :=
  [("a", [F64.of_Z 5]); ("b", [F64.of_Z 7])].

Definition train_labels : value := Labels [("&-direction", ["down"; "up"])].
Definition test_labels : value := Labels [("&-direction", ["up"])].
Definition train_weights : value := Weights [F64.of_Z 1; F64.of_Z 1].
Definition test_weights : value := Weights [F64.of_Z 1].

Definition dictionary : dict :=
  list_to_map [("train_features", Frame train_features);
               ("test_features", Frame test_features);
               ("train_labels", train_labels);
               ("test_labels", test_labels);
               ("train_weights", train_weights);
               ("test_weights", test_weights)].

Definition kitchen : FreqaiDataKitchen :=
  {| training_features_list := ["a"; "b"];
     label_list := ["&-direction"];
     data := {["pair" := Scalar (F64.of_Z 1)]};
     data_dictionary := ∅;
     do_predict := [1; 1] |}.

Definition world : World := {| dk := kitchen; stdout := [] |}.

(** An inference call of the same pair: the store holds [(0, 10)] for
    column [a], and one new row [a = 5] comes in. *)
Definition prediction_kitchen : FreqaiDataKitchen :=
  {| training_features_list := ["a"];
     label_list := ["&-direction"];
     data := list_to_map [("a_min", Scalar (F64.of_Z 0)); ("a_max", Scalar (F64.of_Z 10))];
     data_dictionary := ∅;
     do_predict := [1] |}.

Definition prediction_world : World := {| dk := prediction_kitchen; stdout := [] |}.

Definition unfiltered_dataframe : DataFrame := [("a", [F64.of_Z 5])].

(** A stand-in host. The classifier object records how it was built and
    what it was fitted on, and predicts even odds for two classes; the
    kitchen's filters change nothing and its apply-from-stored-parameters
    operation is [apply_stored_parameters]. *)
Definition half : float64 := F64.ldexp 1 (-1).

#[local] Instance host : Host := {|
  Classifier := CatBoost.Params * option CatBoost.FitCall;
  CatBoostClassifier := λ params, (params, None);
  Classifier_fit := λ clf call, Ok (clf.1, Some call);
  predict_proba := λ _ features,
    match features with
    | Frame df => Ok {| ncols := 2; rows := replicate (Pandas.nrows df) [half; half] |}
    | _ => Raise TypeError
    end;
  classes_ := λ _, ["down"; "up"];
  find_features := λ _, mret tt;
  filter_features := λ df _ _ _, mret (df, Labels []);
  normalize_data_from_metadata := apply_stored_parameters;
  data_cleaning_predict := λ _, mret tt;
|}.

Definition self : Self := {| model := CatBoostClassifier {|
  CatBoost.allow_writing_files := false;
  CatBoost.loss_function := "MultiClass";
  CatBoost.early_stopping_rounds := 10 |} |}.

End Example.

(** The world [predict] leaves behind, given the kitchen as the inherited
    cleaning hook left it: the frame is echoed to the console. *)
Definition echoed (w : World) (pred_df : DataFrame) : World :=
  {| dk := dk w; stdout := stdout w ++ [pred_df] |}.

(** The world after [dk.data_dictionary["prediction_features"] = df]. *)
Definition with_prediction_features (w : World) (df : DataFrame) : World :=
  {| dk := with_data_dictionary (dk w)
             (<["prediction_features" := Frame df]> (data_dictionary (dk w)));
     stdout := stdout w |}.

Module ExampleRun.

(** What the stand-in host computes on the inference call of [Example]. *)
Definition normalized : DataFrame := [("a", [F64.of_Z 0])].
Definition cleaned_world : World :=
  with_prediction_features Example.prediction_world normalized.
Definition predictions : ndarray :=
  {| ncols := 2; rows := [[Example.half; Example.half]] |}.

End ExampleRun.

(** The magnitude of the mantissa in a shift record of the rounding
    procedure. *)
Definition shr_abs (mrs : shr_record) : Z := Z.abs (shr_m mrs).

(** A result that is a number other than zero. *)
Definition nonzero_number (x : float64) : Prop :=
  F64.is_zero x = false ∧ F64.is_nan x = false.

(* ===================================================================== *)
(** ** Training: the dictionary as an object *)
(* ===================================================================== *)

(** The dictionary [train] receives from the kitchen is an object that
    [normalize_data] updates in place. The kitchen either hands out the
    very dictionary it keeps as [dk.data_dictionary], so that each side
    sees the other's updates, or a dictionary that nobody else holds. *)
Inductive dictionary_object :=
  | KitchenDictionary
  | OwnDictionary (d : dict).

(** [dk.data_dictionary] *)
Definition dk_data_dictionary : Py dict := gets data_dictionary.

(** The current content of the object. *)
Definition content (o : dictionary_object) : Py dict :=
  match o with
  | KitchenDictionary => dk_data_dictionary
  | OwnDictionary d => mret d
  end.

(** [o[key] = v], in place. *)
Definition assign (o : dictionary_object) (key : string) (v : value) : Py dictionary_object :=
  match o with
  | KitchenDictionary => _ ← set_data_dictionary key v; mret KitchenDictionary
  | OwnDictionary d => mret (OwnDictionary (<[key := v]> d))
  end.

(** [normalize_data] as it runs on such an object: every subscript reads
    the object as it is at that moment, every assignment updates it. *)
Definition normalize_data_in_place (data_dictionary : dictionary_object)
    : Py dictionary_object :=
  train_max ← (d ← content data_dictionary;
               v ← subscript d "train_features";
               df ← as_frame v; mret (Pandas.max df));
  train_min ← (d ← content data_dictionary;
               v ← subscript d "train_features";
               df ← as_frame v; mret (Pandas.min df));
  d ← content data_dictionary;
  v ← subscript d "train_features";
  df ← as_frame v;
  data_dictionary ←
    assign data_dictionary "train_features" (Frame (standardize df train_min train_max));
  d ← content data_dictionary;
  v ← subscript d "test_features";
  df ← as_frame v;
  data_dictionary ←
    assign data_dictionary "test_features" (Frame (standardize df train_min train_max));
  _ ← for_each (Pandas.keys train_max) (λ item,
        x ← series_getitem train_max item;
        _ ← set_data (item +:+ "_max") (Scalar x);
        x ← series_getitem train_min item;
        set_data (item +:+ "_min") (Scalar x));
  mret data_dictionary.

(** The content of the object in a world, the world in which the object
    has a given content, and the object then. *)
Definition current (o : dictionary_object) (w : World) : dict :=
  match o with
  | KitchenDictionary => data_dictionary (dk w)
  | OwnDictionary d => d
  end.

Definition with_content (o : dictionary_object) (dd : dict) (w : World) : World :=
  match o with
  | KitchenDictionary => {| dk := with_data_dictionary (dk w) dd; stdout := stdout w |}
  | OwnDictionary _ => w
  end.

Definition holding (o : dictionary_object) (dd : dict) : dictionary_object :=
  match o with
  | KitchenDictionary => KitchenDictionary
  | OwnDictionary _ => OwnDictionary dd
  end.

(** The world with the parameters of a train frame recorded. *)
Definition with_parameters (tr : DataFrame) (w : World) : World :=
  {| dk := with_data (dk w)
             (persist (Pandas.max tr) (Pandas.min tr) (Pandas.keys tr) (data (dk w)));
     stdout := stdout w |}.

(** A dictionary with both feature frames standardized by the statistics
    of the train frame. *)
Definition normalized (dd : dict) (tr te : DataFrame) : dict :=
  <["test_features" := Frame (standardize te (Pandas.min tr) (Pandas.max tr))]>
    (<["train_features" := Frame (standardize tr (Pandas.min tr) (Pandas.max tr))]> dd).

(** [len(v.columns)]: frames of features and of labels have columns. *)
Definition columns (v : value) : Py (list string) :=
  match v with
  | Frame df => mret (Pandas.keys df)
  | Labels l => mret (Pandas.keys l)
  | _ => raise (Propagated "AttributeError")
  end.

(** [len(v)]: the rows of a frame, the cells of an array. *)
Definition len (v : value) : Py nat :=
  match v with
  | Frame df => mret (Pandas.nrows df)
  | Labels l => mret (match l with [] => 0%nat | (_, xs) :: _ => length xs end)
  | Weights w => mret (length w)
  | Scalar _ => raise TypeError
  end.

(** What [train] needs beyond [Host]: the kitchen's split into partitions,
    the inherited cleaning hook and the module's logger. *)
Class TrainingHost := {
  make_train_test_datasets : DataFrame → value → Py dictionary_object;
  data_cleaning_train : Py unit;
  logger_info : string → Py unit;
}.

Section Train.

Context `{Host} `{TrainingHost}.

Definition train (unfiltered_dataframe : DataFrame) (pair : string) : Py Classifier :=
  _ ← logger_info ("--------------------Starting training " +:+ pair
                   +:+ " --------------------");
  (* filter the features requested by user in the configuration file *)
  features ← gets training_features_list;
  labels ← gets label_list;
  filtered ← filter_features unfiltered_dataframe features labels true;
  (* split data into train/test data. *)
  data_dictionary ← make_train_test_datasets filtered.1 filtered.2;
  data_dictionary ← normalize_data_in_place data_dictionary;
  (* optional additional data cleaning/analysis *)
  _ ← data_cleaning_train;
  n ← (d ← dk_data_dictionary;
       v ← subscript d "train_features";
       cs ← columns v; mret (length cs));
  _ ← logger_info ("Training model on " +:+ pretty n +:+ " features");
  n ← (d ← content data_dictionary;
       v ← subscript d "train_features";
       len v);
  _ ← logger_info ("Training model on " +:+ pretty n +:+ " data points");
  d ← content data_dictionary;
  model ← fit d;
  _ ← logger_info ("--------------------done training " +:+ pair
                   +:+ "--------------------");
  mret model.

End Train.

(** The training call of [Example]: the kitchen keeps the partitions as
    its own dictionary and hands that object out; the cleaning hook and the
    logger change nothing. *)
Module ExampleTraining.

(** Partitions with missing observations: NaN cells in both frames. *)
Definition gappy_train : DataFrame :=
  [("a", [F64.of_Z 0; F64.nan; F64.of_Z 10]); ("b", [F64.nan; F64.nan; F64.nan])].
Definition gappy_test : DataFrame :=
  [("a", [F64.nan; F64.of_Z 5]); ("b", [F64.of_Z 1; F64.of_Z 2])].
Definition gappy_dictionary : dict :=
  list_to_map [("train_features", Frame gappy_train);
               ("test_features", Frame gappy_test)].

Definition kitchen : FreqaiDataKitchen :=
  {| training_features_list := ["a"; "b"];
     label_list := ["&-direction"];
     data := ∅;
     data_dictionary := ∅;
     do_predict := [] |}.

Definition world : World := {| dk := kitchen; stdout := [] |}.

Definition unfiltered_dataframe : DataFrame :=
  [("a", [F64.of_Z 0; F64.of_Z 10; F64.of_Z 5]);
   ("b", [F64.of_Z 5; F64.of_Z 5; F64.of_Z 7])].

(** The kitchen's dictionary after the split. *)
Definition split_kitchen : FreqaiDataKitchen :=
  with_data_dictionary kitchen Example.dictionary.

(** A kitchen whose dictionary lacks the held-out features. *)
Definition incomplete_world : World :=
  {| dk := with_data_dictionary kitchen (delete "test_features" Example.dictionary);
     stdout := [] |}.

#[local] Instance keeping_host : TrainingHost := {|
  make_train_test_datasets := λ _ _,
    _ ← modify_dk (λ k, with_data_dictionary k Example.dictionary);
    mret KitchenDictionary;
  data_cleaning_train := mret tt;
  logger_info := λ _, mret tt;
|}.

(** A kitchen that hands out a dictionary and keeps none. *)
#[local] Instance forgetful_host : TrainingHost := {|
  make_train_test_datasets := λ _ _, mret (OwnDictionary Example.dictionary);
  data_cleaning_train := mret tt;
  logger_info := λ _, mret tt;
|}.

(** A kitchen whose split lacks the held-out features. *)
#[local] Instance incomplete_host : TrainingHost := {|
  make_train_test_datasets := λ _ _,
    _ ← modify_dk (λ k, with_data_dictionary k
                           (delete "test_features" Example.dictionary));
    mret KitchenDictionary;
  data_cleaning_train := mret tt;
  logger_info := λ _, mret tt;
|}.

(** The world after the split, and after training, of the kitchen that
    keeps its dictionary. *)
Definition split_world : World := {| dk := split_kitchen; stdout := [] |}.

Definition trained_world : World :=
  with_parameters Example.train_features
    (with_content KitchenDictionary
       (normalized Example.dictionary Example.train_features Example.test_features)
       split_world).

End ExampleTraining.

(** Hosts on which an inference call fails. *)
Module ExamplePrediction.

(** A classifier that knows three classes but returns two columns. *)
#[local] Instance three_class_host : Host := {|
  Classifier := CatBoost.Params * option CatBoost.FitCall;
  CatBoostClassifier := λ params, (params, None);
  Classifier_fit := λ clf call, Ok (clf.1, Some call);
  predict_proba := λ _ features,
    match features with
    | Frame df =>
        Ok {| ncols := 2;
              rows := replicate (Pandas.nrows df) [Example.half; Example.half] |}
    | _ => Raise TypeError
    end;
  classes_ := λ _, ["down"; "flat"; "up"];
  find_features := λ _, mret tt;
  filter_features := λ df _ _ _, mret (df, Labels []);
  normalize_data_from_metadata := apply_stored_parameters;
  data_cleaning_predict := λ _, mret tt;
|}.

(** A classifier that rejects every frame. *)
#[local] Instance rejecting_host : Host := {|
  Classifier := CatBoost.Params * option CatBoost.FitCall;
  CatBoostClassifier := λ params, (params, None);
  Classifier_fit := λ clf call, Ok (clf.1, Some call);
  predict_proba := λ _ _, Raise (Propagated "CatBoostError");
  classes_ := λ _, ["down"; "up"];
  find_features := λ _, mret tt;
  filter_features := λ df _ _ _, mret (df, Labels []);
  normalize_data_from_metadata := apply_stored_parameters;
  data_cleaning_predict := λ _, mret tt;
|}.

(** A cleaning hook that drops the prediction features. *)
#[local] Instance dropping_host : Host := {|
  Classifier := CatBoost.Params * option CatBoost.FitCall;
  CatBoostClassifier := λ params, (params, None);
  Classifier_fit := λ clf call, Ok (clf.1, Some call);
  predict_proba := λ _ features,
    match features with
    | Frame df =>
        Ok {| ncols := 2;
              rows := replicate (Pandas.nrows df) [Example.half; Example.half] |}
    | _ => Raise TypeError
    end;
  classes_ := λ _, ["down"; "up"];
  find_features := λ _, mret tt;
  filter_features := λ df _ _ _, mret (df, Labels []);
  normalize_data_from_metadata := apply_stored_parameters;
  data_cleaning_predict := λ _,
    modify_dk (λ k, with_data_dictionary k
                      (delete "prediction_features" (data_dictionary k)));
|}.

Definition params : CatBoost.Params :=
  {| CatBoost.allow_writing_files := false;
     CatBoost.loss_function := "MultiClass";
     CatBoost.early_stopping_rounds := 10 |}.

Definition three_class_self : Self (H := three_class_host) :=
  @Build_Self three_class_host (params, None).
Definition rejecting_self : Self (H := rejecting_host) :=
  @Build_Self rejecting_host (params, None).
Definition dropping_self : Self (H := dropping_host) :=
  @Build_Self dropping_host (params, None).

(** A kitchen whose store holds no parameters. *)
Definition fresh_world : World :=
  {| dk := {| training_features_list := ["a"];
              label_list := ["&-direction"];
              data := ∅;
              data_dictionary := ∅;
              do_predict := [1] |};
     stdout := [] |}.

End ExamplePrediction.

(* ===================================================================== *)
(** ** Facts about the frame operations *)
(* ===================================================================== *)

Section PandasFacts.
Import Pandas.

Lemma keys_max df : keys (max df) = keys df.
Proof. unfold keys, max. rewrite <- list_fmap_compose. done. Qed.

Lemma keys_min df : keys (min df) = keys df.
Proof. unfold keys, min. rewrite <- list_fmap_compose. done. Qed.

Lemma keys_frame_map f df : keys (frame_map f df) = keys df.
Proof. unfold keys, frame_map. rewrite <- list_fmap_compose. done. Qed.

Lemma keys_zip_with {A B C} (f : A → B → C) (l : list (string * A)) (r : list (string * B)) :
  keys l = keys r → keys (zip_with (λ a b, (a.1, f a.2 b.2)) l r) = keys l.
Proof.
  unfold keys. revert r. induction l as [|a l IH]; intros [|b r] E; simplify_eq/=; f_equal; auto.
Qed.

Lemma series_op_aligned op (l r : Series) :
  keys l = keys r →
  series_op op l r = zip_with (λ a b, (a.1, op a.2 b.2)) l r.
Proof. intros E. unfold series_op. by rewrite decide_True. Qed.

Lemma frame_op_series_aligned op (df : DataFrame) (s : Series) :
  keys df = keys s →
  frame_op_series op df s
  = zip_with (λ (c : string * list float64) (a : string * float64),
                (c.1, (λ v, op v a.2) <$> c.2)) df s.
Proof. intros E. unfold frame_op_series. by rewrite decide_True. Qed.

Lemma keys_frame_op_series op (df : DataFrame) (s : Series) :
  keys df = keys s → keys (frame_op_series op df s) = keys df.
Proof.
  intros E. rewrite frame_op_series_aligned by done.
  apply (keys_zip_with (λ xs a, (λ v, op v a) <$> xs)), E.
Qed.

Lemma keys_series_op op (l r : Series) :
  keys l = keys r → keys (series_op op l r) = keys l.
Proof. intros E. rewrite series_op_aligned by done. apply (keys_zip_with op), E. Qed.

(** A frame whose labels are those of the train frame is transformed
    column by column, each cell by [scale] at the train column's
    minimum and maximum. *)
Lemma standardize_aligned (df tr : DataFrame) :
  keys df = keys tr →
  standardize df (min tr) (max tr) = zip_with scale_column tr df.
Proof.
  intros E. unfold standardize, sub_scalar, div_series, rmul_scalar, sub_series, series_sub.
  rewrite (series_op_aligned _ (max tr) (min tr)) by by rewrite keys_max, keys_min.
  rewrite (frame_op_series_aligned _ df (min tr)) by by rewrite keys_min.
  rewrite frame_op_series_aligned; last first.
  { rewrite keys_frame_map.
    rewrite (keys_zip_with (λ xs a, (λ v, F64.sub v a) <$> xs) df (min tr))
      by by rewrite keys_min.
    rewrite (keys_zip_with F64.sub (max tr) (min tr)) by by rewrite keys_max, keys_min.
    by rewrite keys_max. }
  unfold frame_map, max, min. clear -E. unfold keys in E.
  revert tr E. induction df as [|[c xs] df IH]; intros [|[c' xs'] tr] E; simplify_eq/=; [done|].
  f_equal; [|by apply IH].
  unfold scale_column; simpl. f_equal.
  rewrite <- !list_fmap_compose. done.
Qed.

End PandasFacts.

(* ===================================================================== *)
(** ** Running the computations *)
(* ===================================================================== *)

Ltac py_unfold :=
  unfold mbind, mret, Py_bind, Py_ret, raise, lift, gets, modify_dk, print,
    subscript, as_frame, as_scalar, series_getitem, set_data, set_data_dictionary.

Lemma bind_run {A B} (m : Py A) (k : A → Py B) (w : World) :
  (m ≫= k) w = match m w with
               | (w', Ok a) => k a w'
               | (w', Raise e) => (w', Raise e)
               end.
Proof. done. Qed.

Lemma ret_run {A} (a : A) (w : World) : mret (M := Py) a w = (w, Ok a).
Proof. done. Qed.

Lemma subscript_run (d : dict) (key : string) (v : value) (w : World) :
  d !! key = Some v → subscript d key w = (w, Ok v).
Proof. intros E. unfold subscript. by rewrite E. Qed.

Lemma as_frame_run (df : DataFrame) (w : World) : as_frame (Frame df) w = (w, Ok df).
Proof. done. Qed.

Lemma as_scalar_run (x : float64) (w : World) : as_scalar (Scalar x) w = (w, Ok x).
Proof. done. Qed.

Lemma gets_run {A} (f : FreqaiDataKitchen → A) (w : World) : gets f w = (w, Ok (f (dk w))).
Proof. done. Qed.

Lemma lift_run {A} (r : result A) (w : World) : lift r w = (w, r).
Proof. done. Qed.

Lemma set_data_dictionary_run (key : string) (v : value) (w : World) :
  set_data_dictionary key v w
  = ({| dk := with_data_dictionary (dk w) (<[key := v]> (data_dictionary (dk w)));
        stdout := stdout w |}, Ok tt).
Proof. done. Qed.

Lemma print_run (df : DataFrame) (w : World) :
  print df w = ({| dk := dk w; stdout := stdout w ++ [df] |}, Ok tt).
Proof. done. Qed.

(** One step of a computation applied to a world. *)
Ltac py_step :=
  first
    [ rewrite bind_run
    | rewrite ret_run
    | rewrite as_frame_run
    | rewrite as_scalar_run
    | rewrite gets_run
    | rewrite lift_run
    | rewrite set_data_dictionary_run
    | rewrite print_run
    | erewrite subscript_run
        by first [ eassumption | rewrite lookup_insert_ne by done; eassumption ] ].

Ltac py_run := repeat (py_step; cbv beta iota).

Lemma world_eta (w : World) :
  {| dk := with_data (dk w) (data (dk w)); stdout := stdout w |} = w.
Proof. by destruct w as [[]]. Qed.

Lemma getitem_is_Some {A} (l : list (string * A)) (item : string) :
  item ∈ Pandas.keys l → is_Some (Pandas.getitem l item).
Proof.
  unfold Pandas.keys. induction l as [|[k a] l IH]; simpl.
  - by intros ?%elem_of_nil.
  - intros Hin. destruct (decide (k = item)) as [->|Hne]; [by eexists|].
    apply IH. apply elem_of_cons in Hin as [?|?]; [by subst|done].
Qed.

(** With unique labels, [l[k]] is the entry labelled [k]. *)
Lemma getitem_NoDup {A} (l : list (string * A)) (k : string) (a : A) :
  NoDup (Pandas.keys l) → (k, a) ∈ l → Pandas.getitem l k = Some a.
Proof.
  unfold Pandas.keys. induction l as [|[k' a'] l IH]; simpl.
  - by intros _ ?%elem_of_nil.
  - intros [Hni Hnd]%NoDup_cons [Heq|Hin]%elem_of_cons.
    + simplify_eq. by rewrite decide_True.
    + case_decide as Hk; [|by apply IH].
      subst. exfalso. apply Hni. apply list_elem_of_fmap. by exists (k, a).
Qed.

(** The recording loop never raises on the labels of the two series. *)
Lemma for_each_persist (train_max train_min : Series) (items : list string) (w : World) :
  (∀ item, item ∈ items →
     item ∈ Pandas.keys train_max ∧ item ∈ Pandas.keys train_min) →
  for_each items (λ item,
      x ← series_getitem train_max item;
      _ ← set_data (item +:+ "_max") (Scalar x);
      x ← series_getitem train_min item;
      set_data (item +:+ "_min") (Scalar x)) w
  = ({| dk := with_data (dk w) (persist train_max train_min items (data (dk w)));
        stdout := stdout w |}, Ok tt).
Proof.
  set (body := λ item : string, _).
  revert w. induction items as [|item items IH]; intros w Hin.
  - simpl. by rewrite world_eta.
  - destruct (Hin item) as [Hmx Hmn]; [by apply elem_of_cons; left|].
    apply getitem_is_Some in Hmx as [mx Hmx], Hmn as [mn Hmn].
    assert (body item w
            = ({| dk := with_data (dk w) (persist train_max train_min [item] (data (dk w)));
                  stdout := stdout w |}, Ok tt)) as Hbody.
    { subst body. unfold persist. py_unfold. cbn. rewrite !Hmx. cbn. by rewrite !Hmn. }
    cbn [for_each]. unfold mbind, Py_bind. rewrite Hbody, IH; [done|].
    intros item' Hin'. apply Hin. by apply elem_of_cons; right.
Qed.

(** [normalize_data] on a dictionary holding the two feature frames: the
    call returns, with both frames standardized by the train statistics
    and the statistics recorded in the store. *)
Lemma normalize_data_run (dd : dict) (w : World) (tr te : DataFrame) :
  dd !! "train_features" = Some (Frame tr) →
  dd !! "test_features" = Some (Frame te) →
  normalize_data dd w
  = ({| dk := with_data (dk w)
                (persist (Pandas.max tr) (Pandas.min tr) (Pandas.keys tr) (data (dk w)));
        stdout := stdout w |},
     Ok (<["test_features" := Frame (standardize te (Pandas.min tr) (Pandas.max tr))]>
           (<["train_features" := Frame (standardize tr (Pandas.min tr) (Pandas.max tr))]> dd))).
Proof.
  intros Htr Hte. unfold normalize_data.
  pose proof (for_each_persist (Pandas.max tr) (Pandas.min tr) (Pandas.keys tr)) as E.
  py_run. rewrite keys_max, E; [done|].
  intros item Hin. by rewrite keys_max, keys_min.
Qed.

(* ===================================================================== *)
(** ** Store keys *)
(* ===================================================================== *)

Lemma string_length_app (s t : string) :
  String.length (s +:+ t) = (String.length s + String.length t)%nat.
Proof. induction s as [|a s IH]; simpl; [done|]. by rewrite IH. Qed.

(** Two labels extended by suffixes of the same length agree only when
    both the labels and the suffixes do. *)
Lemma suffixed_inj (s1 s2 t1 t2 : string) :
  String.length t1 = String.length t2 →
  s1 +:+ t1 = s2 +:+ t2 → s1 = s2 ∧ t1 = t2.
Proof.
  intros Hlen. revert s2. induction s1 as [|a s1 IH]; intros [|b s2] E; simpl in E.
  - done.
  - apply (f_equal String.length) in E. rewrite !string_length_app in E. simpl in E. lia.
  - apply (f_equal String.length) in E. rewrite !string_length_app in E. simpl in E. lia.
  - injection E as -> E. destruct (IH _ E) as [-> ->]. done.
Qed.

Lemma min_key_inj (c c' : string) : c +:+ "_min" = c' +:+ "_min" → c = c'.
Proof. intros E. by apply suffixed_inj in E as [? _]. Qed.

Lemma max_key_inj (c c' : string) : c +:+ "_max" = c' +:+ "_max" → c = c'.
Proof. intros E. by apply suffixed_inj in E as [? _]. Qed.

Lemma min_key_ne_max_key (c c' : string) : c +:+ "_min" ≠ c' +:+ "_max".
Proof. intros E. by apply suffixed_inj in E as [_ ?]. Qed.

Section Persist.
Variables train_max train_min : Series.

Lemma persist_cons item items store :
  persist train_max train_min (item :: items) store
  = persist train_max train_min items
      (<[item +:+ "_min" := Scalar (default F64.nan (Pandas.getitem train_min item))]>
         (<[item +:+ "_max" := Scalar (default F64.nan (Pandas.getitem train_max item))]>
            store)).
Proof. done. Qed.

(** Keys that are no parameter key of a recorded label are left alone. *)
Lemma persist_lookup_other items store key :
  (∀ c, c ∈ items → key ≠ c +:+ "_min" ∧ key ≠ c +:+ "_max") →
  persist train_max train_min items store !! key = store !! key.
Proof.
  revert store. induction items as [|item items IH]; intros store Hkey; [done|].
  rewrite persist_cons, IH.
  - destruct (Hkey item) as [Hmin Hmax]; [by apply elem_of_cons; left|].
    by rewrite !lookup_insert_ne.
  - intros c Hc. apply Hkey. by apply elem_of_cons; right.
Qed.

Lemma persist_lookup_min items store c :
  c ∈ items →
  persist train_max train_min items store !! (c +:+ "_min")
  = Some (Scalar (default F64.nan (Pandas.getitem train_min c))).
Proof.
  revert store. induction items as [|item items IH]; intros store Hc.
  - by apply elem_of_nil in Hc.
  - rewrite persist_cons. destruct (decide (c ∈ items)) as [Hin|Hni]; [by apply IH|].
    apply elem_of_cons in Hc as [->|?]; [|done].
    rewrite persist_lookup_other.
    + by rewrite lookup_insert_eq.
    + intros c' Hc'. split; [|apply min_key_ne_max_key].
      intros E%min_key_inj. by subst.
Qed.

Lemma persist_lookup_max items store c :
  c ∈ items →
  persist train_max train_min items store !! (c +:+ "_max")
  = Some (Scalar (default F64.nan (Pandas.getitem train_max c))).
Proof.
  revert store. induction items as [|item items IH]; intros store Hc.
  - by apply elem_of_nil in Hc.
  - rewrite persist_cons. destruct (decide (c ∈ items)) as [Hin|Hni]; [by apply IH|].
    apply elem_of_cons in Hc as [->|?]; [|done].
    rewrite persist_lookup_other.
    + rewrite lookup_insert_ne by apply min_key_ne_max_key.
      by rewrite lookup_insert_eq.
    + intros c' Hc'. split; [intros E; by apply eq_sym, min_key_ne_max_key in E|].
      intros E%max_key_inj. by subst.
Qed.

End Persist.

(** The statistics of a column, read back from the series by its label. *)
Lemma getitem_min (tr : DataFrame) (c : string) (xs : list float64) :
  NoDup (Pandas.keys tr) → (c, xs) ∈ tr →
  Pandas.getitem (Pandas.min tr) c = Some (Pandas.col_min xs).
Proof.
  intros Hnd Hin. apply getitem_NoDup; [by rewrite keys_min|].
  unfold Pandas.min. apply list_elem_of_fmap. by exists (c, xs).
Qed.

Lemma getitem_max (tr : DataFrame) (c : string) (xs : list float64) :
  NoDup (Pandas.keys tr) → (c, xs) ∈ tr →
  Pandas.getitem (Pandas.max tr) c = Some (Pandas.col_max xs).
Proof.
  intros Hnd Hin. apply getitem_NoDup; [by rewrite keys_max|].
  unfold Pandas.max. apply list_elem_of_fmap. by exists (c, xs).
Qed.

Lemma elem_of_keys {A} (l : list (string * A)) (c : string) (a : A) :
  (c, a) ∈ l → c ∈ Pandas.keys l.
Proof. intros Hin. unfold Pandas.keys. apply list_elem_of_fmap. by exists (c, a). Qed.

(* ===================================================================== *)
(** ** normalize_data *)
(* ===================================================================== *)

Lemma zip_with_diag {A B} (f : A → A → B) (l : list A) :
  zip_with f l l = (λ a, f a a) <$> l.
Proof. induction l as [|a l IH]; simpl; [done|]. by rewrite IH. Qed.

(** C1. On a data dictionary holding a train and a test feature frame with
    the same columns, [normalize_data] returns, and in the dictionary it
    returns every train column and every test column is replaced cell by
    cell through [2 * (v - min) / (max - min) - 1], where [min] and [max]
    are the minimum and maximum of the train column of the same position:
    the held-out frame is scaled with the train frame's parameters, never
    with statistics of its own. *)
Theorem normalize_data_fit_and_apply (dd : dict) (w : World) (tr te : DataFrame) :
  dd !! "train_features" = Some (Frame tr) →
  dd !! "test_features" = Some (Frame te) →
  Pandas.keys te = Pandas.keys tr →
  ∃ w' dd',
    normalize_data dd w = (w', Ok dd') ∧
    dd' !! "train_features" = Some (Frame ((λ c, scale_column c c) <$> tr)) ∧
    dd' !! "test_features" = Some (Frame (zip_with scale_column tr te)).
Proof.
  intros Htr Hte Hkeys. eexists _, _. split; [by apply normalize_data_run|].
  split.
  - rewrite lookup_insert_ne by done. rewrite lookup_insert_eq.
    by rewrite standardize_aligned, zip_with_diag.
  - rewrite lookup_insert_eq. by rewrite standardize_aligned.
Qed.

Lemma normalize_data_fit_and_apply_witness :
  ∃ w' dd',
    normalize_data Example.dictionary Example.world = (w', Ok dd') ∧
    dd' !! "train_features"
      = Some (Frame ((λ c, scale_column c c) <$> Example.train_features)) ∧
    dd' !! "test_features"
      = Some (Frame (zip_with scale_column Example.train_features Example.test_features)).
Proof.
  apply (normalize_data_fit_and_apply
           Example.dictionary Example.world
           Example.train_features Example.test_features); reflexivity.
Defined.


(** C9. Whenever [normalize_data] returns, the dictionary it returns
    differs from the one it was given at most under the keys
    ["train_features"] and ["test_features"]: every other entry, among
    them the labels and the weights of both partitions, is the entry that
    was passed in. *)
Theorem normalize_data_other_entries (dd dd' : dict) (w w' : World) :
  normalize_data dd w = (w', Ok dd') →
  ∀ key, key ≠ "train_features" → key ≠ "test_features" → dd' !! key = dd !! key.
Proof.
  intros Hrun key Htrain Htest.
  destruct (dd !! "train_features") as [[tr| | |]|] eqn:Htr;
    try (exfalso; revert Hrun; unfold normalize_data; py_unfold; rewrite Htr; by cbn).
  destruct (dd !! "test_features") as [[te| | |]|] eqn:Hte;
    try (exfalso; revert Hrun; unfold normalize_data; py_unfold; rewrite Htr; cbn;
         rewrite lookup_insert_ne by done; rewrite Hte; by cbn).
  rewrite (normalize_data_run dd w tr te Htr Hte) in Hrun.
  injection Hrun as _ <-. by rewrite !lookup_insert_ne.
Qed.

Lemma normalize_data_other_entries_witness :
  ∃ w' dd',
    normalize_data Example.dictionary Example.world = (w', Ok dd') ∧
    dd' !! "train_labels" = Example.dictionary !! "train_labels" ∧
    dd' !! "test_labels" = Example.dictionary !! "test_labels" ∧
    dd' !! "train_weights" = Example.dictionary !! "train_weights" ∧
    dd' !! "test_weights" = Example.dictionary !! "test_weights".
Proof.
  pose proof (normalize_data_run Example.dictionary Example.world
                Example.train_features Example.test_features eq_refl eq_refl) as Hrun.
  eexists _, _. split; [exact Hrun|].
  pose proof (normalize_data_other_entries Example.dictionary _ Example.world _ Hrun)
    as Hother.
  split; [|split; [|split]]; apply Hother; discriminate.
Defined.

(** The outcome of [normalize_data] on a train frame with distinct
    labels: the returned train frame and the recorded statistics. *)
Lemma normalize_data_outcome (dd : dict) (w : World) (tr te : DataFrame) :
  dd !! "train_features" = Some (Frame tr) →
  dd !! "test_features" = Some (Frame te) →
  NoDup (Pandas.keys tr) →
  ∃ w' dd',
    normalize_data dd w = (w', Ok dd') ∧
    (∀ c xs, (c, xs) ∈ tr →
       data (dk w') !! (c +:+ "_min") = Some (Scalar (Pandas.col_min xs)) ∧
       data (dk w') !! (c +:+ "_max") = Some (Scalar (Pandas.col_max xs))) ∧
    dd' !! "train_features" = Some (Frame ((λ c, scale_column c c) <$> tr)).
Proof.
  intros Htr Hte Hnd. eexists _, _. split; [by apply normalize_data_run|].
  cbn. split.
  - intros c xs Hin. pose proof (elem_of_keys _ _ _ Hin) as Hc.
    rewrite persist_lookup_min, persist_lookup_max by done.
    by rewrite (getitem_min tr c xs), (getitem_max tr c xs).
  - rewrite lookup_insert_ne by done. rewrite lookup_insert_eq.
    by rewrite standardize_aligned, zip_with_diag.
Qed.

Lemma Example_train_features_NoDup : NoDup (Pandas.keys Example.train_features).
Proof.
  unfold Pandas.keys, Example.train_features. cbn.
  apply NoDup_cons. split; [|apply NoDup_singleton].
  intros Hin. apply list_elem_of_singleton in Hin. discriminate.
Qed.

(** C5. After [normalize_data] has run on a train frame with distinct
    column labels, the kitchen's store maps, for every train column [c],
    the key [c_min] to the minimum and the key [c_max] to the maximum of
    that column as it was before normalisation; no other key of the store
    is written. *)
Theorem normalize_data_persists_parameters (dd : dict) (w : World) (tr te : DataFrame) :
  dd !! "train_features" = Some (Frame tr) →
  dd !! "test_features" = Some (Frame te) →
  NoDup (Pandas.keys tr) →
  ∃ w' dd',
    normalize_data dd w = (w', Ok dd') ∧
    (∀ c xs, (c, xs) ∈ tr →
       data (dk w') !! (c +:+ "_min") = Some (Scalar (Pandas.col_min xs)) ∧
       data (dk w') !! (c +:+ "_max") = Some (Scalar (Pandas.col_max xs))) ∧
    (∀ key, (∀ c, c ∈ Pandas.keys tr → key ≠ c +:+ "_min" ∧ key ≠ c +:+ "_max") →
       data (dk w') !! key = data (dk w) !! key).
Proof.
  intros Htr Hte Hnd. eexists _, _. split; [by apply normalize_data_run|].
  cbn. split.
  - intros c xs Hin. pose proof (elem_of_keys _ _ _ Hin) as Hc.
    rewrite persist_lookup_min, persist_lookup_max by done.
    by rewrite (getitem_min tr c xs), (getitem_max tr c xs).
  - intros key Hkey. by apply persist_lookup_other.
Qed.

Lemma normalize_data_persists_parameters_witness :
  ∃ w' dd',
    normalize_data Example.dictionary Example.world = (w', Ok dd') ∧
    (∀ c xs, (c, xs) ∈ Example.train_features →
       data (dk w') !! (c +:+ "_min") = Some (Scalar (Pandas.col_min xs)) ∧
       data (dk w') !! (c +:+ "_max") = Some (Scalar (Pandas.col_max xs))) ∧
    (∀ key, (∀ c, c ∈ Pandas.keys Example.train_features →
               key ≠ c +:+ "_min" ∧ key ≠ c +:+ "_max") →
       data (dk w') !! key = data (dk Example.world) !! key).
Proof.
  apply (normalize_data_persists_parameters
           Example.dictionary Example.world
           Example.train_features Example.test_features);
    [reflexivity | reflexivity | apply Example_train_features_NoDup].
Defined.

(* ===================================================================== *)
(** ** Re-applying the stored parameters *)
(* ===================================================================== *)

(** On a store that holds the statistics of every column of a frame,
    applying the stored parameters returns, leaves the world as it is, and
    transforms each column with its own statistics. *)
Lemma apply_stored_parameters_run (df : DataFrame) (w : World) :
  (∀ c xs, (c, xs) ∈ df →
     data (dk w) !! (c +:+ "_min") = Some (Scalar (Pandas.col_min xs)) ∧
     data (dk w) !! (c +:+ "_max") = Some (Scalar (Pandas.col_max xs))) →
  apply_stored_parameters df w = (w, Ok ((λ c, scale_column c c) <$> df)).
Proof.
  induction df as [|[c xs] df IH]; intros Hstore; [done|].
  destruct (Hstore c xs) as [Hmin Hmax]; [by apply elem_of_cons; left|].
  cbn [apply_stored_parameters]. py_run. rewrite IH; [done|].
  intros c' xs' Hin. apply Hstore. by apply elem_of_cons; right.
Qed.

(** C6. After [normalize_data] has run on a train frame with distinct
    column labels, applying the stored parameters to that same raw train
    frame returns exactly the train frame that [normalize_data] put in the
    dictionary, and leaves the world as it is. *)
Theorem stored_parameters_reproduce_train (dd : dict) (w : World) (tr te : DataFrame) :
  dd !! "train_features" = Some (Frame tr) →
  dd !! "test_features" = Some (Frame te) →
  NoDup (Pandas.keys tr) →
  ∃ w' dd' out,
    normalize_data dd w = (w', Ok dd') ∧
    apply_stored_parameters tr w' = (w', Ok out) ∧
    dd' !! "train_features" = Some (Frame out).
Proof.
  intros Htr Hte Hnd.
  destruct (normalize_data_outcome dd w tr te Htr Hte Hnd)
    as (w' & dd' & Hrun & Hstore & Htrain).
  exists w', dd', ((λ c, scale_column c c) <$> tr).
  split; [done|]. split; [by apply apply_stored_parameters_run|done].
Qed.

Lemma stored_parameters_reproduce_train_witness :
  ∃ w' dd' out,
    normalize_data Example.dictionary Example.world = (w', Ok dd') ∧
    apply_stored_parameters Example.train_features w' = (w', Ok out) ∧
    dd' !! "train_features" = Some (Frame out).
Proof.
  apply (stored_parameters_reproduce_train
           Example.dictionary Example.world
           Example.train_features Example.test_features);
    [reflexivity | reflexivity | apply Example_train_features_NoDup].
Defined.

(* ===================================================================== *)
(** ** return_values and fit *)
(* ===================================================================== *)

(** C10. [return_values] hands back the frame it was given and leaves the
    world, kitchen and console, as it found it. *)
Theorem return_values_identity (dataframe : DataFrame) (w : World) :
  return_values dataframe w = (w, Ok dataframe).
Proof. reflexivity. Qed.

Section Fit.
Context `{Host}.

(** C2. On a data dictionary holding the five entries it reads, [fit]
    builds a fresh multi-class classifier with an early-stopping patience
    of 10 and calls the library's fit with the features, labels and
    weights stored under the ["test_..."] keys as training data and the
    features and labels stored under the ["train_..."] keys as evaluation
    set; what that call yields, the fitted classifier or the error it
    raised, is the outcome of [fit], and the world is left as it was. *)
Theorem fit_trains_on_test_validates_on_train
    (dd : dict) (w : World) (train_features train_labels : value)
    (test_features test_labels test_weights : value) :
  dd !! "train_features" = Some train_features →
  dd !! "train_labels" = Some train_labels →
  dd !! "test_features" = Some test_features →
  dd !! "test_labels" = Some test_labels →
  dd !! "test_weights" = Some test_weights →
  fit dd w
  = (w, Classifier_fit
          (CatBoostClassifier {| CatBoost.allow_writing_files := false;
                                 CatBoost.loss_function := "MultiClass";
                                 CatBoost.early_stopping_rounds := 10 |})
          {| CatBoost.X := test_features;
             CatBoost.y := test_labels;
             CatBoost.sample_weight := test_weights;
             CatBoost.eval_set := (train_features, train_labels) |}).
Proof.
  intros Hxe Hye Hxt Hyt Hwt. unfold fit. py_run.
  by destruct (Classifier_fit _ _).
Qed.

End Fit.

Lemma fit_trains_on_test_validates_on_train_witness :
  fit (H := Example.host) Example.dictionary Example.world
  = (Example.world,
     Ok ({| CatBoost.allow_writing_files := false;
            CatBoost.loss_function := "MultiClass";
            CatBoost.early_stopping_rounds := 10 |},
         Some {| CatBoost.X := Frame Example.test_features;
                 CatBoost.y := Example.test_labels;
                 CatBoost.sample_weight := Example.test_weights;
                 CatBoost.eval_set := (Frame Example.train_features, Example.train_labels) |})).
Proof.
  apply (fit_trains_on_test_validates_on_train (H := Example.host)
           Example.dictionary Example.world
           (Frame Example.train_features) Example.train_labels
           (Frame Example.test_features) Example.test_labels Example.test_weights);
    reflexivity.
Defined.

(* ===================================================================== *)
(** ** predict *)
(* ===================================================================== *)

Lemma DataFrame_of_array_keys (a : ndarray) (columns : list string) (df : DataFrame) :
  DataFrame_of_array a columns = Ok df → Pandas.keys df = columns.
Proof.
  unfold DataFrame_of_array. case_decide; [|done]. intros [= <-].
  unfold Pandas.keys. rewrite fmap_imap. unfold compose. simpl.
  clear. change (imap (λ _ c, c) columns = columns).
  generalize 0%nat. induction columns as [|c l IH]; intros n; simpl; [done|].
  f_equal. apply (IH (S n)).
Qed.

Lemma DataFrame_of_array_lookup (a : ndarray) (columns : list string) (df : DataFrame)
    (j : nat) (c : string) :
  DataFrame_of_array a columns = Ok df →
  columns !! j = Some c → df !! j = Some (c, column_of a j).
Proof.
  unfold DataFrame_of_array. case_decide; [|done]. intros [= <-] Hc.
  by rewrite list_lookup_imap, Hc.
Qed.

Lemma DataFrame_of_array_Ok (a : ndarray) (columns : list string) :
  ncols a = length columns → ∃ df, DataFrame_of_array a columns = Ok df.
Proof. intros E. unfold DataFrame_of_array. rewrite decide_True by done. by eexists. Qed.

Lemma column_of_lookup (a : ndarray) (i j : nat) (row : list float64) :
  rows a !! i = Some row → column_of a j !! i = Some (default F64.nan (row !! j)).
Proof. intros Hrow. unfold column_of. by rewrite list_lookup_fmap, Hrow. Qed.

Lemma column_of_length (a : ndarray) (j : nat) : length (column_of a j) = length (rows a).
Proof. unfold column_of. by rewrite length_fmap. Qed.

Section Predict.
Context `{Host}.

(** [predict] along the path on which every collaborator returns. *)
Lemma predict_run (self : Self) (unfiltered_dataframe : DataFrame) (first : bool)
    (w w1 w2 w3 w4 : World) (filtered normalized pred_df : DataFrame)
    (labels features : value) (predictions : ndarray) :
  find_features unfiltered_dataframe w = (w1, Ok tt) →
  filter_features unfiltered_dataframe (training_features_list (dk w1)) [] false w1
    = (w2, Ok (filtered, labels)) →
  normalize_data_from_metadata filtered w2 = (w3, Ok normalized) →
  data_cleaning_predict normalized (with_prediction_features w3 normalized) = (w4, Ok tt) →
  data_dictionary (dk w4) !! "prediction_features" = Some features →
  predict_proba (model self) features = Ok predictions →
  DataFrame_of_array predictions (classes_ (model self)) = Ok pred_df →
  predict self unfiltered_dataframe first w
  = (echoed w4 pred_df, Ok (pred_df, do_predict (dk w4))).
Proof.
  intros Hfind Hfilter Hnorm Hclean Hfeat Hproba Hframe. unfold predict.
  rewrite bind_run, Hfind. py_run.
  rewrite Hfilter. py_run. cbn [fst]. rewrite Hnorm. py_run.
  fold (with_prediction_features w3 normalized). rewrite Hclean. py_run.
  rewrite Hproba. py_run. rewrite Hframe. py_run. done.
Qed.

(** C7. When the kitchen's operations, the cleaning hook and the
    classifier return, [predict] returns a pair. Its first component is a
    frame with one column per class of the classifier, labelled by the
    classes in their order, whose row [i] is row [i] of the probabilities
    the classifier computed for the kitchen's prediction features, one row
    per row of the input frame. Its second component is the kitchen's
    [do_predict] mask. *)
Theorem predict_returns_probabilities_and_mask
    (self : Self) (unfiltered_dataframe : DataFrame) (first : bool)
    (w w1 w2 w3 w4 : World) (filtered normalized : DataFrame)
    (labels features : value) (predictions : ndarray) :
  find_features unfiltered_dataframe w = (w1, Ok tt) →
  filter_features unfiltered_dataframe (training_features_list (dk w1)) [] false w1
    = (w2, Ok (filtered, labels)) →
  normalize_data_from_metadata filtered w2 = (w3, Ok normalized) →
  data_cleaning_predict normalized (with_prediction_features w3 normalized) = (w4, Ok tt) →
  data_dictionary (dk w4) !! "prediction_features" = Some features →
  predict_proba (model self) features = Ok predictions →
  ncols predictions = length (classes_ (model self)) →
  length (rows predictions) = Pandas.nrows unfiltered_dataframe →
  ∃ w' pred_df,
    predict self unfiltered_dataframe first w = (w', Ok (pred_df, do_predict (dk w4))) ∧
    Pandas.keys pred_df = classes_ (model self) ∧
    (∀ j c, classes_ (model self) !! j = Some c →
       ∃ column, pred_df !! j = Some (c, column) ∧
         length column = Pandas.nrows unfiltered_dataframe ∧
         ∀ i row, rows predictions !! i = Some row →
           column !! i = Some (default F64.nan (row !! j))).
Proof.
  intros Hfind Hfilter Hnorm Hclean Hfeat Hproba Hcols Hrows.
  destruct (DataFrame_of_array_Ok _ _ Hcols) as [pred_df Hframe].
  exists (echoed w4 pred_df), pred_df. split; [|split].
  - by eapply predict_run.
  - by eapply DataFrame_of_array_keys.
  - intros j c Hc. exists (column_of predictions j). split; [|split].
    + by eapply DataFrame_of_array_lookup.
    + by rewrite column_of_length.
    + intros i row Hrow. by apply column_of_lookup.
Qed.

(** C8, as the code has it. With a kitchen whose operations and cleaning
    hook leave the world as they find it, a call of [predict], whether it
    returns or raises in the classifier, leaves the kitchen as it was but
    for one entry: [data_dictionary["prediction_features"]] now holds the
    normalised filtered frame. *)
Theorem predict_sets_prediction_features
    (self : Self) (unfiltered_dataframe : DataFrame) (first : bool)
    (w w' : World) (filtered normalized : DataFrame) (labels : value)
    (r : result (DataFrame * list Z)) :
  find_features unfiltered_dataframe w = (w, Ok tt) →
  filter_features unfiltered_dataframe (training_features_list (dk w)) [] false w
    = (w, Ok (filtered, labels)) →
  normalize_data_from_metadata filtered w = (w, Ok normalized) →
  data_cleaning_predict normalized (with_prediction_features w normalized)
    = (with_prediction_features w normalized, Ok tt) →
  predict self unfiltered_dataframe first w = (w', r) →
  dk w' = with_data_dictionary (dk w)
            (<["prediction_features" := Frame normalized]> (data_dictionary (dk w))).
Proof.
  intros Hfind Hfilter Hnorm Hclean. unfold predict.
  rewrite bind_run, Hfind. py_run.
  rewrite Hfilter. py_run. cbn [fst]. rewrite Hnorm. py_run.
  fold (with_prediction_features w normalized). rewrite Hclean. py_run.
  erewrite subscript_run by apply lookup_insert_eq. cbv beta iota.
  destruct (predict_proba _ _) as [predictions|e]; py_run; [|by intros [= <- _]].
  destruct (DataFrame_of_array _ _) as [pred_df|e]; py_run; by intros [= <- _].
Qed.

End Predict.

Lemma predict_returns_probabilities_and_mask_witness :
  ∃ w' pred_df,
    predict (H := Example.host) Example.self Example.unfiltered_dataframe false
      Example.prediction_world
    = (w', Ok (pred_df, [1])) ∧
    Pandas.keys pred_df = ["down"; "up"] ∧
    (∀ j c, ["down"; "up"] !! j = Some c →
       ∃ column, pred_df !! j = Some (c, column) ∧
         length column = 1%nat ∧
         ∀ i row, [[Example.half; Example.half]] !! i = Some row →
           column !! i = Some (default F64.nan (row !! j))).
Proof.
  apply (predict_returns_probabilities_and_mask (H := Example.host)
           Example.self Example.unfiltered_dataframe false
           Example.prediction_world Example.prediction_world
           Example.prediction_world Example.prediction_world
           ExampleRun.cleaned_world
           Example.unfiltered_dataframe ExampleRun.normalized
           (Labels []) (Frame ExampleRun.normalized) ExampleRun.predictions);
    reflexivity.
Defined.

Lemma predict_sets_prediction_features_witness :
  ∃ w' r,
    predict (H := Example.host) Example.self Example.unfiltered_dataframe false
      Example.prediction_world = (w', r) ∧
    dk w' = with_data_dictionary Example.prediction_kitchen
              (<["prediction_features" := Frame ExampleRun.normalized]> ∅).
Proof.
  pose (out := predict (H := Example.host) Example.self Example.unfiltered_dataframe
                 false Example.prediction_world).
  exists out.1, out.2. split; [apply surjective_pairing|].
  apply (predict_sets_prediction_features (H := Example.host)
           Example.self Example.unfiltered_dataframe false
           Example.prediction_world out.1
           Example.unfiltered_dataframe ExampleRun.normalized (Labels []) out.2);
    reflexivity.
Defined.

(** C8 as stated fails: on the inference call of [Example], whose kitchen
    operations change nothing, [predict] returns and the kitchen's data
    dictionary, empty before the call, holds ["prediction_features"]
    after it. *)
Lemma predict_changes_the_kitchen :
  ∃ w' r,
    predict (H := Example.host) Example.self Example.unfiltered_dataframe false
      Example.prediction_world = (w', Ok r) ∧
    data_dictionary (dk Example.prediction_world) !! "prediction_features" = None ∧
    data_dictionary (dk w') !! "prediction_features"
      = Some (Frame [("a", [F64.of_Z 0])]) ∧
    dk w' ≠ dk Example.prediction_world.
Proof.
  eexists _, _. split; [reflexivity|]. split; [reflexivity|]. split; [reflexivity|].
  intros E. apply (f_equal (λ k, data_dictionary k !! "prediction_features")) in E.
  discriminate E.
Qed.

(* ===================================================================== *)
(** ** The transform over exact arithmetic *)
(* ===================================================================== *)

Section ExactTransform.
Local Open Scope Q_scope.

Lemma scale_Q_unfold (mn mx v : Q) :
  scale mn mx v = (2 * (v - mn)) / (mx - mn) - 1.
Proof. reflexivity. Qed.

Lemma scale_Q_lt (mn mx v1 v2 : Q) :
  mn < mx → v1 < v2 → scale mn mx v1 < scale mn mx v2.
Proof.
  intros Hrange Hlt. rewrite !scale_Q_unfold.
  assert (0 < / (mx - mn)) as Hinv by (apply Qinv_lt_0_compat; lra).
  unfold Qdiv.
  assert (2 * (v1 - mn) * / (mx - mn) < 2 * (v2 - mn) * / (mx - mn)); [|lra].
  apply Qmult_lt_compat_r; [done|lra].
Qed.

Lemma scale_Q_min (mn mx : Q) : mn < mx → scale mn mx mn == -1.
Proof. intros Hrange. rewrite scale_Q_unfold. field. lra. Qed.

Lemma scale_Q_max (mn mx : Q) : mn < mx → scale mn mx mx == 1.
Proof. intros Hrange. rewrite scale_Q_unfold. field. lra. Qed.

Lemma scale_Q_midpoint (mn mx : Q) : mn < mx → scale mn mx ((mn + mx) / 2) == 0.
Proof. intros Hrange. rewrite scale_Q_unfold. field. lra. Qed.

Lemma scale_Q_le (mn mx v1 v2 : Q) :
  mn < mx → v1 <= v2 → scale mn mx v1 <= scale mn mx v2.
Proof.
  intros Hrange Hle. rewrite !scale_Q_unfold.
  assert (0 < / (mx - mn)) as Hinv by (apply Qinv_lt_0_compat; lra).
  unfold Qdiv.
  assert (2 * (v1 - mn) * / (mx - mn) <= 2 * (v2 - mn) * / (mx - mn)); [|lra].
  apply Qmult_le_compat_r; lra.
Qed.

End ExactTransform.

(* ===================================================================== *)
(** ** The transform in binary64 *)
(* ===================================================================== *)

Lemma of_Z_1 : F64.of_Z 1 = S754_finite false 4503599627370496 (-52).
Proof. reflexivity. Qed.

(** [x == y] makes [x - y] a zero, or NaN when both are one infinity. *)
Lemma sub_of_equal (x y : float64) :
  F64.eqb x y = true → F64.is_zero (F64.sub x y) || F64.is_nan (F64.sub x y) = true.
Proof.
  unfold F64.eqb, SFeqb, F64.sub.
  destruct x as [sx|sx| |sx mx ex], y as [sy|sy| |sy my ey]; simpl;
    try discriminate; try (by destruct sx, sy); try (by destruct sx); try (by destruct sy).
  intros Hcmp.
  assert (sx = sy ∧ ex = ey ∧ mx = my) as (-> & -> & ->).
  { destruct sx, sy; try discriminate;
      destruct (Z.compare ex ey) eqn:He; try discriminate;
      apply Z.compare_eq in He; subst;
      destruct (Pos.compare_cont Eq mx my) eqn:Hm; try discriminate;
      apply Pos.compare_eq in Hm; by subst. }
  unfold SFsub. rewrite Z.sub_diag. done.
Qed.

(** Dividing by a zero or by NaN never gives a finite number. *)
Lemma div_by_zero_not_finite (x d : float64) :
  F64.is_zero d || F64.is_nan d = true → F64.is_finite (F64.div x d) = false.
Proof. by destruct x, d. Qed.

Lemma sub_1_not_finite (x : float64) :
  F64.is_finite x = false → F64.is_finite (F64.sub x (F64.of_Z 1)) = false.
Proof. rewrite of_Z_1. by destruct x. Qed.

(** On a zero-width range every input is sent to NaN or to an infinity. *)
Lemma scale_degenerate (mn mx v : float64) :
  F64.eqb mx mn = true → F64.is_finite (scale mn mx v) = false.
Proof.
  intros Heq. unfold scale. cbn [minus times divide lit arith_float64].
  apply sub_1_not_finite, div_by_zero_not_finite, sub_of_equal, Heq.
Qed.

(** C3, as the code has it. For a train column whose maximum equals its
    minimum, [normalize_data] raises nothing and substitutes no default:
    it returns, and every cell of that column, in the train frame and in
    the held-out frame, has become NaN or an infinity. *)
Theorem normalize_data_degenerate_column
    (dd : dict) (w : World) (tr te : DataFrame) (j : nat)
    (c c' : string) (xs ys : list float64) :
  dd !! "train_features" = Some (Frame tr) →
  dd !! "test_features" = Some (Frame te) →
  Pandas.keys te = Pandas.keys tr →
  tr !! j = Some (c, xs) →
  te !! j = Some (c', ys) →
  F64.eqb (Pandas.col_max xs) (Pandas.col_min xs) = true →
  ∃ w' dd' tr' te' out_tr out_te,
    normalize_data dd w = (w', Ok dd') ∧
    dd' !! "train_features" = Some (Frame tr') ∧
    dd' !! "test_features" = Some (Frame te') ∧
    tr' !! j = Some (c, out_tr) ∧
    te' !! j = Some (c', out_te) ∧
    length out_tr = length xs ∧
    length out_te = length ys ∧
    Forall (λ v, F64.is_finite v = false) out_tr ∧
    Forall (λ v, F64.is_finite v = false) out_te.
Proof.
  intros Htr Hte Hkeys Hj Hj' Hdeg.
  eexists _, _, ((λ c, scale_column c c) <$> tr), (zip_with scale_column tr te), _, _.
  split; [by apply normalize_data_run|].
  split; [by rewrite lookup_insert_ne, lookup_insert_eq,
             standardize_aligned, zip_with_diag|].
  split; [by rewrite lookup_insert_eq, standardize_aligned|].
  split; [by rewrite list_lookup_fmap, Hj|].
  split; [by rewrite lookup_zip_with, Hj; cbn; rewrite Hj'|].
  cbn. rewrite !length_fmap. split; [done|]. split; [done|].
  split; apply Forall_fmap, Forall_forall; intros v _; by apply scale_degenerate.
Qed.

Lemma normalize_data_degenerate_column_witness :
  ∃ w' dd' tr' te' out_tr out_te,
    normalize_data Example.dictionary Example.world = (w', Ok dd') ∧
    dd' !! "train_features" = Some (Frame tr') ∧
    dd' !! "test_features" = Some (Frame te') ∧
    tr' !! 1%nat = Some ("b", out_tr) ∧
    te' !! 1%nat = Some ("b", out_te) ∧
    length out_tr = 2%nat ∧
    length out_te = 1%nat ∧
    Forall (λ v, F64.is_finite v = false) out_tr ∧
    Forall (λ v, F64.is_finite v = false) out_te.
Proof.
  apply (normalize_data_degenerate_column
           Example.dictionary Example.world
           Example.train_features Example.test_features 1
           "b" "b" [F64.of_Z 5; F64.of_Z 5] [F64.of_Z 7]); reflexivity.
Defined.

(** C3 as stated fails: on train features [{a: [0, 10], b: [5, 5]}] the
    call returns without an error, and the cells of the constant column
    [b] are NaN, not the default [0]; the held-out cell [b = 7] becomes
    [+inf]. *)
Lemma degenerate_column_becomes_nan :
  Pandas.col_max [F64.of_Z 5; F64.of_Z 5] = Pandas.col_min [F64.of_Z 5; F64.of_Z 5] ∧
  ∃ w' dd',
    normalize_data Example.dictionary Example.world = (w', Ok dd') ∧
    dd' !! "train_features"
      = Some (Frame [("a", [F64.of_Z (-1); F64.of_Z 1]); ("b", [F64.nan; F64.nan])]) ∧
    dd' !! "test_features"
      = Some (Frame [("a", [F64.of_Z 0]); ("b", [S754_infinity false])]).
Proof.
  split; [reflexivity|].
  eexists _, _. split.
  - exact (normalize_data_run Example.dictionary Example.world
             Example.train_features Example.test_features eq_refl eq_refl).
  - split; reflexivity.
Qed.

(* ===================================================================== *)
(** ** Subtraction of distinct numbers in binary64 *)
(* ===================================================================== *)

Section Rounding.

Lemma iter_pos_morph {A B} (g : A → B) (f : A → A) (f' : B → B) (p : positive) (x : A) :
  (∀ a, g (f a) = f' (g a)) → g (SpecFloat.iter_pos f p x) = Pos.iter f' (g x) p.
Proof.
  intros Hfg. revert x. induction p as [p IH|p IH|]; intros x; simpl.
  - by rewrite !IH, Hfg, !Pos.iter_swap.
  - by rewrite !IH.
  - apply Hfg.
Qed.

Lemma shr_1_abs (mrs : shr_record) : shr_abs (shr_1 mrs) = Z.div2 (shr_abs mrs).
Proof. by destruct mrs as [[|[m|m|]|[m|m|]] r s]. Qed.

Lemma shr_abs_iter (p : positive) (mrs : shr_record) :
  shr_abs (SpecFloat.iter_pos shr_1 p mrs) = shr_abs mrs / 2 ^ Zpos p.
Proof.
  rewrite (iter_pos_morph shr_abs shr_1 Z.div2) by apply shr_1_abs.
  change (Pos.iter Z.div2 (shr_abs mrs) p) with (Z.shiftr (shr_abs mrs) (Zpos p)).
  by rewrite Z.shiftr_div_pow2.
Qed.

Lemma digits2_pos_le (m : positive) : 2 ^ Zpos (digits2_pos m) ≤ 2 * Zpos m.
Proof.
  induction m as [m IH|m IH|]; simpl; [| |done];
    rewrite Pos2Z.inj_succ, Z.pow_succ_r by lia; lia.
Qed.

Lemma digits2_pos_shift (m d : positive) :
  Zpos (digits2_pos (Pos.iter xO m d)) = Zpos (digits2_pos m) + Zpos d.
Proof.
  revert m. induction d as [|d IH] using Pos.peano_ind; intros m.
  - simpl. lia.
  - rewrite Pos.iter_succ. simpl. rewrite Pos2Z.inj_succ, IH. lia.
Qed.

Lemma iter_pos_invariant {A} (P : A → Prop) (f : A → A) (p : positive) (x : A) :
  (∀ a, P a → P (f a)) → P x → P (SpecFloat.iter_pos f p x).
Proof.
  intros Hf. revert x. induction p as [p IH|p IH|]; intros x Hx; simpl; auto.
Qed.

Lemma shr_1_nonneg (mrs : shr_record) : 0 ≤ shr_m mrs → 0 ≤ shr_m (shr_1 mrs).
Proof. destruct mrs as [[|[m|m|]|[m|m|]] r s]; simpl; lia. Qed.

Lemma shr_record_of_loc_m (m : Z) (l : location) : shr_m (shr_record_of_loc m l) = m.
Proof. by destruct l as [|[]]. Qed.

(** Rounding a positive mantissa at an exponent that is not below the
    smallest one keeps the mantissa positive. *)
Lemma shr_fexp_pos (m e : Z) (l : location) (mrs' : shr_record) (e' : Z) :
  0 < m → emin F64.prec F64.emax ≤ e →
  shr_fexp F64.prec F64.emax m e l = (mrs', e') →
  0 < shr_m mrs' ∧ emin F64.prec F64.emax ≤ e'.
Proof.
  intros Hm He. unfold shr_fexp, shr.
  destruct m as [|mp|mp]; [lia| |lia]. cbn [Zdigits2].
  destruct (fexp F64.prec F64.emax (Zpos (digits2_pos mp) + e) - e) as [|p|p] eqn:Hn;
    intros [= <- <-]; rewrite ?shr_record_of_loc_m; try done.
  unfold fexp, emin, F64.prec, F64.emax in *.
  assert (Zpos p = Zpos (digits2_pos mp) - 53) as Hp by lia.
  split; [|lia].
  assert (0 ≤ shr_m (SpecFloat.iter_pos shr_1 p (shr_record_of_loc (Zpos mp) l))) as Hnn.
  { apply (iter_pos_invariant (λ mrs, 0 ≤ shr_m mrs)); [apply shr_1_nonneg|].
    rewrite shr_record_of_loc_m. lia. }
  pose proof (shr_abs_iter p (shr_record_of_loc (Zpos mp) l)) as Habs.
  unfold shr_abs in Habs. rewrite shr_record_of_loc_m in Habs.
  rewrite Z.abs_eq in Habs by done. rewrite Habs. simpl Z.abs.
  apply Z.div_str_pos. split; [by apply Z.pow_pos_nonneg|].
  pose proof (digits2_pos_le mp) as Hd.
  replace (Zpos (digits2_pos mp)) with (Z.succ (Zpos (digits2_pos mp) - 1)) in Hd by lia.
  rewrite Z.pow_succ_r in Hd by lia.
  assert (2 ^ Zpos p ≤ 2 ^ (Zpos (digits2_pos mp) - 1)); [|lia].
  apply Z.pow_le_mono_r; lia.
Qed.

Lemma round_nearest_even_ge (m : Z) (l : location) : m ≤ round_nearest_even m l.
Proof. destruct l as [|[]]; simpl; try lia. destruct (Z.even m); lia. Qed.

Lemma binary_round_aux_nonzero (s : bool) (m e : Z) (l : location) :
  0 < m → emin F64.prec F64.emax ≤ e →
  nonzero_number (binary_round_aux F64.prec F64.emax s m e l).
Proof.
  intros Hm He. unfold binary_round_aux.
  destruct (shr_fexp _ _ m e l) as [mrs' e'] eqn:E1.
  apply shr_fexp_pos in E1 as [Hm' He']; [|done..].
  destruct (shr_fexp _ _ (round_nearest_even _ _) e' loc_Exact) as [mrs'' e''] eqn:E2.
  apply shr_fexp_pos in E2 as [Hm'' He'']; [|pose proof (round_nearest_even_ge
    (shr_m mrs') (loc_of_shr_record mrs')); lia|done].
  destruct (shr_m mrs'') as [|m''|m'']; [lia| |lia].
  by destruct (_ <=? _).
Qed.

Lemma binary_normalize_nonzero (m e : Z) :
  m ≠ 0 → emin F64.prec F64.emax ≤ e →
  nonzero_number (binary_normalize F64.prec F64.emax m e false).
Proof.
  intros Hm He.
  assert (∀ s mp, nonzero_number (binary_round F64.prec F64.emax s mp e)) as Hround.
  { intros s mp. unfold binary_round, shl_align.
    destruct (fexp _ _ _ - e) as [|d|d] eqn:Hd; apply binary_round_aux_nonzero; try done.
    unfold fexp, emin in *. lia. }
  destruct m as [|mp|mp]; [done|apply Hround..].
Qed.

Lemma valid_finite (s : bool) (m : positive) (e : Z) :
  F64.valid (S754_finite s m e) = true →
  e = fexp F64.prec F64.emax (Zpos (digits2_pos m) + e) ∧ emin F64.prec F64.emax ≤ e.
Proof.
  unfold F64.valid, valid_binary, bounded, canonical_mantissa.
  intros [Hc _]%andb_prop. apply Z.eqb_eq in Hc.
  split; [done|]. rewrite <- Hc. unfold fexp. lia.
Qed.

Lemma shl_align_digits (m : positive) (e ez : Z) :
  ez ≤ e →
  Zpos (digits2_pos (shl_align m e ez).1) + ez = Zpos (digits2_pos m) + e.
Proof.
  intros Hle. unfold shl_align. destruct (ez - e) as [|d|d] eqn:Hd; simpl; [lia..|].
  rewrite digits2_pos_shift. lia.
Qed.

Lemma shl_align_same (m : positive) (e : Z) : (shl_align m e e).1 = m.
Proof. unfold shl_align. by rewrite Z.sub_diag. Qed.

(** Two binary64 numbers that differ have a difference that is a number
    other than zero: subtraction does not underflow to zero. *)
Lemma sub_finite_nonzero (sx sy : bool) (mx my : positive) (ex ey : Z) :
  F64.valid (S754_finite sx mx ex) = true →
  F64.valid (S754_finite sy my ey) = true →
  F64.eqb (S754_finite sx mx ex) (S754_finite sy my ey) = false →
  nonzero_number (F64.sub (S754_finite sy my ey) (S754_finite sx mx ex)).
Proof.
  intros [Hcx Hex]%valid_finite [Hcy Hey]%valid_finite Hne.
  unfold F64.sub, SFsub. apply binary_normalize_nonzero; [|lia].
  intros Hdiff.
  pose proof (shl_align_digits my ey (Z.min ey ex) ltac:(lia)) as Hdy.
  pose proof (shl_align_digits mx ex (Z.min ey ex) ltac:(lia)) as Hdx.
  assert (sx = sy ∧ (shl_align my ey (Z.min ey ex)).1 = (shl_align mx ex (Z.min ey ex)).1)
    as [-> Hm].
  { destruct sx, sy; simpl in Hdiff; try lia; split; try done; lia. }
  rewrite Hm in Hdy.
  assert (ex = ey) as -> by (rewrite Hcx, Hcy; f_equal; lia).
  rewrite Z.min_id, !shl_align_same in Hm. subst my.
  revert Hne. unfold F64.eqb, SFeqb, SFcompare.
  rewrite Z.compare_refl, Pos.compare_cont_refl. by destruct sy.
Qed.

Lemma sub_lt_nonzero (x y : float64) :
  F64.valid x = true → F64.valid y = true → F64.is_finite x = true →
  F64.ltb x y = true → nonzero_number (F64.sub y x).
Proof.
  intros Hvx Hvy Hfx Hlt.
  assert (F64.eqb x y = false) as Hne.
  { revert Hlt. unfold F64.ltb, F64.eqb, SFltb, SFeqb.
    by destruct (SFcompare x y) as [[]|]. }
  destruct x as [sx|sx| |sx mx ex], y as [sy|sy| |sy my ey]; try done.
  by apply sub_finite_nonzero.
Qed.

(** In binary64 the minimum of a range of positive width is sent to
    exactly [-1.0]. *)
Lemma scale_binary64_min (mn mx : float64) :
  F64.valid mn = true → F64.valid mx = true → F64.is_finite mn = true →
  F64.ltb mn mx = true →
  scale mn mx mn = F64.of_Z (-1).
Proof.
  intros Hvn Hvx Hfn Hlt.
  destruct (sub_lt_nonzero mn mx Hvn Hvx Hfn Hlt) as [Hz Hn].
  unfold scale. cbn [minus times divide lit arith_float64].
  assert (F64.sub mn mn = S754_zero false) as ->.
  { destruct mn as [[]|?| |s m e]; try done.
    unfold F64.sub, SFsub. by rewrite Z.sub_diag. }
  change (F64.mul (F64.of_Z 2) (S754_zero false)) with (S754_zero false).
  destruct (F64.sub mx mn) as [?|sd| |sd md ed]; try done; by destruct sd.
Qed.

End Rounding.

(** C4 as stated fails in binary64, the arithmetic of the code. With
    [min = 0 < max = 2^60], the inputs [1 < 2] are both sent to [-1.0], so
    the transform is not strictly increasing; with [min = -2^1023 < max =
    2^1023] the range overflows and [max] is sent to NaN, not to [1]. *)
Lemma scale_binary64_not_strictly_increasing :
  F64.ltb (F64.of_Z 0) (F64.of_Z (2 ^ 60)) = true ∧
  F64.ltb (F64.of_Z 1) (F64.of_Z 2) = true ∧
  scale (F64.of_Z 0) (F64.of_Z (2 ^ 60)) (F64.of_Z 1) = F64.of_Z (-1) ∧
  scale (F64.of_Z 0) (F64.of_Z (2 ^ 60)) (F64.of_Z 2) = F64.of_Z (-1) ∧
  F64.ltb (scale (F64.of_Z 0) (F64.of_Z (2 ^ 60)) (F64.of_Z 1))
          (scale (F64.of_Z 0) (F64.of_Z (2 ^ 60)) (F64.of_Z 2)) = false ∧
  F64.ltb (F64.of_Z (- 2 ^ 1023)) (F64.of_Z (2 ^ 1023)) = true ∧
  scale (F64.of_Z (- 2 ^ 1023)) (F64.of_Z (2 ^ 1023)) (F64.of_Z (2 ^ 1023)) = F64.nan.
Proof. repeat split; vm_compute; reflexivity. Qed.

(** C4, amended. Read over exact rational arithmetic, for every
    [min < max] the transform is strictly increasing, maps [min] to [-1],
    [max] to [1], every value between them into [[-1, 1]] and the midpoint
    to [0]. In binary64, for every finite [min] and every [max] above it,
    [min] is mapped to exactly [-1.0]; and with [min = 0] and [max = 10]
    the inputs [10] and [5] are mapped to exactly [1.0] and [0.0]. *)
Theorem scale_exact_and_binary64 :
  (∀ mn mx : Q, (mn < mx)%Q →
     (∀ v1 v2 : Q, (v1 < v2)%Q → (scale mn mx v1 < scale mn mx v2)%Q) ∧
     (scale mn mx mn == -1)%Q ∧
     (scale mn mx mx == 1)%Q ∧
     (∀ v : Q, (mn <= v)%Q → (v <= mx)%Q →
        (-1 <= scale mn mx v)%Q ∧ (scale mn mx v <= 1)%Q) ∧
     (scale mn mx ((mn + mx) / 2) == 0)%Q) ∧
  (∀ mn mx : float64,
     F64.valid mn = true → F64.valid mx = true → F64.is_finite mn = true →
     F64.ltb mn mx = true →
     scale mn mx mn = F64.of_Z (-1)) ∧
  scale (F64.of_Z 0) (F64.of_Z 10) (F64.of_Z 10) = F64.of_Z 1 ∧
  scale (F64.of_Z 0) (F64.of_Z 10) (F64.of_Z 5) = S754_zero false.
Proof.
  split; [|split; [apply scale_binary64_min|split; vm_compute; reflexivity]].
  intros mn mx Hrange.
  split; [intros v1 v2; by apply scale_Q_lt|].
  split; [by apply scale_Q_min|].
  split; [by apply scale_Q_max|].
  split; [|by apply scale_Q_midpoint].
  intros v Hlo Hhi. split.
  - rewrite <- (scale_Q_min mn mx Hrange). by apply scale_Q_le.
  - rewrite <- (scale_Q_max mn mx Hrange). by apply scale_Q_le.
Qed.

Lemma scale_exact_and_binary64_witness :
  ((∀ v1 v2 : Q, (v1 < v2)%Q → (scale 0 10 v1 < scale 0 10 v2)%Q) ∧
   (scale 0 10 0 == -1)%Q ∧
   (scale 0 10 10 == 1)%Q ∧
   (∀ v : Q, (0 <= v)%Q → (v <= 10)%Q →
      (-1 <= scale 0 10 v)%Q ∧ (scale 0 10 v <= 1)%Q) ∧
   (scale 0 10 ((0 + 10) / 2) == 0)%Q) ∧
  scale (F64.of_Z 0) (F64.of_Z 10) (F64.of_Z 0) = F64.of_Z (-1).
Proof.
  destruct scale_exact_and_binary64 as (Hexact & Hmin & _).
  split.
  - apply (Hexact 0%Q 10%Q). reflexivity.
  - apply (Hmin (F64.of_Z 0) (F64.of_Z 10)); reflexivity.
Defined.

(* ===================================================================== *)
(** * Further properties of the plugin *)
(* ===================================================================== *)

(* ===================================================================== *)
(** ** normalize_data on a dictionary object *)
(* ===================================================================== *)

Lemma content_run (o : dictionary_object) (w : World) :
  content o w = (w, Ok (current o w)).
Proof. by destruct o. Qed.

Lemma assign_run (o : dictionary_object) (key : string) (v : value) (w : World) :
  assign o key v w
  = (with_content o (<[key := v]> (current o w)) w,
     Ok (holding o (<[key := v]> (current o w)))).
Proof. by destruct o. Qed.

Lemma current_holding (o : dictionary_object) (dd : dict) (w : World) :
  current (holding o dd) (with_content o dd w) = dd.
Proof. by destruct o. Qed.

Lemma raise_run {A} (e : exn) (w : World) : raise (A := A) e w = (w, Raise e).
Proof. done. Qed.

Lemma subscript_missing (d : dict) (key : string) (w : World) :
  d !! key = None → subscript d key w = (w, Raise (KeyError key)).
Proof. intros E. unfold subscript. by rewrite E. Qed.

Lemma as_frame_other (v : value) (w : World) :
  (∀ df, v ≠ Frame df) → as_frame v w = (w, Raise TypeError).
Proof. intros Hv. destruct v; try done. by destruct (Hv df). Qed.

(** One step of a computation on a dictionary object. *)
Ltac obj_step :=
  first
    [ py_step
    | rewrite content_run
    | rewrite assign_run
    | rewrite current_holding
    | rewrite raise_run
    | erewrite subscript_missing
        by first [ eassumption | rewrite lookup_insert_ne by done; eassumption ] ].

Ltac obj_run := repeat (obj_step; cbv beta iota).

(** The outcomes of [normalize_data] on a dictionary object, by what the
    object holds under the two feature keys. *)
Lemma normalize_data_in_place_returns (o : dictionary_object) (w : World)
    (tr te : DataFrame) :
  current o w !! "train_features" = Some (Frame tr) →
  current o w !! "test_features" = Some (Frame te) →
  normalize_data_in_place o w
  = (with_parameters tr
       (with_content o
          (<["test_features" := Frame (standardize te (Pandas.min tr) (Pandas.max tr))]>
             (<["train_features" := Frame (standardize tr (Pandas.min tr) (Pandas.max tr))]>
                (current o w))) w),
     Ok (holding o
           (<["test_features" := Frame (standardize te (Pandas.min tr) (Pandas.max tr))]>
              (<["train_features" := Frame (standardize tr (Pandas.min tr) (Pandas.max tr))]>
                 (current o w))))).
Proof.
  intros Htr Hte. unfold normalize_data_in_place.
  pose proof (for_each_persist (Pandas.max tr) (Pandas.min tr) (Pandas.keys tr)) as E.
  obj_run. rewrite keys_max, E.
  - destruct o; reflexivity.
  - intros item Hin. by rewrite keys_max, keys_min.
Qed.

Lemma normalize_data_in_place_no_train (o : dictionary_object) (w : World) :
  current o w !! "train_features" = None →
  normalize_data_in_place o w = (w, Raise (KeyError "train_features")).
Proof. intros Htr. unfold normalize_data_in_place. by obj_run. Qed.

Lemma normalize_data_in_place_bad_train (o : dictionary_object) (w : World) (v : value) :
  current o w !! "train_features" = Some v → (∀ df, v ≠ Frame df) →
  normalize_data_in_place o w = (w, Raise TypeError).
Proof.
  intros Htr Hv. unfold normalize_data_in_place. obj_run.
  by rewrite as_frame_other.
Qed.

Lemma normalize_data_in_place_no_test (o : dictionary_object) (w : World) (tr : DataFrame) :
  current o w !! "train_features" = Some (Frame tr) →
  current o w !! "test_features" = None →
  normalize_data_in_place o w
  = (with_content o
       (<["train_features" := Frame (standardize tr (Pandas.min tr) (Pandas.max tr))]>
          (current o w)) w,
     Raise (KeyError "test_features")).
Proof. intros Htr Hte. unfold normalize_data_in_place. by obj_run. Qed.

Lemma normalize_data_in_place_bad_test (o : dictionary_object) (w : World)
    (tr : DataFrame) (v : value) :
  current o w !! "train_features" = Some (Frame tr) →
  current o w !! "test_features" = Some v → (∀ df, v ≠ Frame df) →
  normalize_data_in_place o w
  = (with_content o
       (<["train_features" := Frame (standardize tr (Pandas.min tr) (Pandas.max tr))]>
          (current o w)) w,
     Raise TypeError).
Proof.
  intros Htr Hte Hv. unfold normalize_data_in_place. obj_run.
  by rewrite as_frame_other.
Qed.

(** The outcomes of [normalize_data] on a dictionary value. *)
Lemma normalize_data_no_train (dd : dict) (w : World) :
  dd !! "train_features" = None →
  normalize_data dd w = (w, Raise (KeyError "train_features")).
Proof. intros Htr. unfold normalize_data. by obj_run. Qed.

Lemma normalize_data_bad_train (dd : dict) (w : World) (v : value) :
  dd !! "train_features" = Some v → (∀ df, v ≠ Frame df) →
  normalize_data dd w = (w, Raise TypeError).
Proof. intros Htr Hv. unfold normalize_data. obj_run. by rewrite as_frame_other. Qed.

Lemma normalize_data_no_test (dd : dict) (w : World) (tr : DataFrame) :
  dd !! "train_features" = Some (Frame tr) →
  dd !! "test_features" = None →
  normalize_data dd w = (w, Raise (KeyError "test_features")).
Proof. intros Htr Hte. unfold normalize_data. by obj_run. Qed.

Lemma normalize_data_bad_test (dd : dict) (w : World) (tr : DataFrame) (v : value) :
  dd !! "train_features" = Some (Frame tr) →
  dd !! "test_features" = Some v → (∀ df, v ≠ Frame df) →
  normalize_data dd w = (w, Raise TypeError).
Proof.
  intros Htr Hte Hv. unfold normalize_data. obj_run. by rewrite as_frame_other.
Qed.

(** Case analysis on what a dictionary holds under the two feature keys. *)
Ltac feature_cases dd Htr Hte tr te :=
  destruct (dd !! "train_features") as [[tr| | |]|] eqn:Htr;
  [ destruct (dd !! "test_features") as [[te| | |]|] eqn:Hte | .. ].

(** X1. When the dictionary has no ["train_features"] entry,
    [normalize_data] raises [KeyError] for that key at once: the kitchen's
    store and the console are as before. *)
Theorem normalize_data_missing_train_features (dd : dict) (w : World) :
  dd !! "train_features" = None →
  normalize_data dd w = (w, Raise (KeyError "train_features")).
Proof. intros Htr. unfold normalize_data. obj_run. reflexivity. Qed.

Lemma normalize_data_missing_train_features_witness :
  normalize_data (delete "train_features" Example.dictionary) Example.world
  = (Example.world, Raise (KeyError "train_features")).
Proof.
  apply (normalize_data_missing_train_features
           (delete "train_features" Example.dictionary) Example.world).
  reflexivity.
Defined.

(** X2. When the dictionary object holds a train frame but no
    ["test_features"] entry, [normalize_data] raises [KeyError] for that
    key after it has replaced the train frame: no parameter is recorded in
    the store, yet a dictionary that the kitchen keeps already holds the
    standardized train frame. *)
Theorem normalize_data_partial_update (o : dictionary_object) (w : World) (tr : DataFrame) :
  current o w !! "train_features" = Some (Frame tr) →
  current o w !! "test_features" = None →
  ∃ w',
    normalize_data_in_place o w = (w', Raise (KeyError "test_features")) ∧
    data (dk w') = data (dk w) ∧
    stdout w' = stdout w ∧
    (o = KitchenDictionary →
       data_dictionary (dk w') !! "train_features"
       = Some (Frame ((λ c, scale_column c c) <$> tr))).
Proof.
  intros Htr Hte. eexists. split; [by apply normalize_data_in_place_no_test|].
  destruct o as [|d]; cbn; repeat split; try done.
  intros _. rewrite lookup_insert_eq.
  by rewrite standardize_aligned, zip_with_diag.
Qed.

Lemma normalize_data_partial_update_witness :
  ∃ w',
    normalize_data_in_place KitchenDictionary ExampleTraining.incomplete_world
    = (w', Raise (KeyError "test_features")) ∧
    data (dk w') = ∅ ∧
    stdout w' = [] ∧
    (KitchenDictionary = KitchenDictionary →
       data_dictionary (dk w') !! "train_features"
       = Some (Frame ((λ c, scale_column c c) <$> Example.train_features))).
Proof.
  apply (normalize_data_partial_update KitchenDictionary
           ExampleTraining.incomplete_world Example.train_features); reflexivity.
Defined.

Lemma normalize_data_Ok_inv (dd dd' : dict) (w w' : World) :
  normalize_data dd w = (w', Ok dd') →
  ∃ tr te,
    dd !! "train_features" = Some (Frame tr) ∧
    dd !! "test_features" = Some (Frame te).
Proof.
  intros Hrun. feature_cases dd Htr Hte tr te; try (by eexists _, _);
    exfalso; revert Hrun.
  all: first
    [ by rewrite (normalize_data_bad_test dd w tr _ Htr Hte)
    | by rewrite (normalize_data_no_test dd w tr Htr Hte)
    | by rewrite (normalize_data_bad_train dd w _ Htr)
    | by rewrite (normalize_data_no_train dd w Htr) ].
Qed.

(** X3. Running [normalize_data] in place on a dictionary object agrees
    with running it on the object's content: when the run on the content
    returns a dictionary, the run on the object returns the object, now
    holding that dictionary, and leaves the world of the run on the
    content; a kitchen that keeps the object sees the normalised frames in
    its own [data_dictionary]. *)
Theorem normalize_data_in_place_agrees (o : dictionary_object) (w w' : World) (dd' : dict) :
  normalize_data (current o w) w = (w', Ok dd') →
  normalize_data_in_place o w = (with_content o dd' w', Ok (holding o dd')) ∧
  current (holding o dd') (with_content o dd' w') = dd'.
Proof.
  intros Hrun. split; [|apply current_holding].
  destruct (normalize_data_Ok_inv _ _ _ _ Hrun) as (tr & te & Htr & Hte).
  rewrite (normalize_data_run _ w tr te Htr Hte) in Hrun.
  injection Hrun as <- <-.
  rewrite (normalize_data_in_place_returns o w tr te Htr Hte).
  by destruct o.
Qed.

Lemma normalize_data_in_place_agrees_witness :
  ∃ w' dd',
    normalize_data Example.dictionary
      {| dk := ExampleTraining.split_kitchen; stdout := [] |} = (w', Ok dd') ∧
    normalize_data_in_place KitchenDictionary
      {| dk := ExampleTraining.split_kitchen; stdout := [] |}
    = ({| dk := with_data_dictionary (dk w') dd'; stdout := stdout w' |},
       Ok KitchenDictionary).
Proof.
  pose proof (normalize_data_run Example.dictionary
                {| dk := ExampleTraining.split_kitchen; stdout := [] |}
                Example.train_features Example.test_features eq_refl eq_refl) as Hrun.
  eexists _, _. split; [exact Hrun|].
  apply (normalize_data_in_place_agrees KitchenDictionary
           {| dk := ExampleTraining.split_kitchen; stdout := [] |} _ _ Hrun).
Defined.

(** X4. Whatever the dictionary object holds and however the call ends,
    [normalize_data] never writes the console, the kitchen's feature list,
    label list or [do_predict] mask; of the kitchen's own data dictionary
    it changes at most the entries ["train_features"] and
    ["test_features"], and nothing at all when the object it works on is
    not the kitchen's. *)
Theorem normalize_data_leaves_kitchen_alone (o : dictionary_object) (w : World) :
  training_features_list (dk (normalize_data_in_place o w).1)
    = training_features_list (dk w) ∧
  label_list (dk (normalize_data_in_place o w).1) = label_list (dk w) ∧
  do_predict (dk (normalize_data_in_place o w).1) = do_predict (dk w) ∧
  stdout (normalize_data_in_place o w).1 = stdout w ∧
  (∀ key, key ≠ "train_features" → key ≠ "test_features" →
     data_dictionary (dk (normalize_data_in_place o w).1) !! key
     = data_dictionary (dk w) !! key) ∧
  (∀ d, o = OwnDictionary d →
     data_dictionary (dk (normalize_data_in_place o w).1) = data_dictionary (dk w)).
Proof.
  feature_cases (current o w) Htr Hte tr te.
  - rewrite (normalize_data_in_place_returns o w tr te Htr Hte).
    destruct o; cbn; repeat split; try done.
    intros key H1 H2. by rewrite !lookup_insert_ne.
  - rewrite (normalize_data_in_place_bad_test o w tr _ Htr Hte) by done.
    destruct o; cbn; repeat split; try done.
    intros key H1 H2. by rewrite !lookup_insert_ne.
  - rewrite (normalize_data_in_place_bad_test o w tr _ Htr Hte) by done.
    destruct o; cbn; repeat split; try done.
    intros key H1 H2. by rewrite !lookup_insert_ne.
  - rewrite (normalize_data_in_place_bad_test o w tr _ Htr Hte) by done.
    destruct o; cbn; repeat split; try done.
    intros key H1 H2. by rewrite !lookup_insert_ne.
  - rewrite (normalize_data_in_place_no_test o w tr Htr Hte).
    destruct o; cbn; repeat split; try done.
    intros key H1 H2. by rewrite !lookup_insert_ne.
  - by rewrite (normalize_data_in_place_bad_train o w _ Htr).
  - by rewrite (normalize_data_in_place_bad_train o w _ Htr).
  - by rewrite (normalize_data_in_place_bad_train o w _ Htr).
  - by rewrite (normalize_data_in_place_no_train o w Htr).
Qed.

(* ===================================================================== *)
(** ** The normalised frames *)
(* ===================================================================== *)

Lemma scale_column_lookup (tr : DataFrame) (j : nat) (c : string) (xs : list float64) :
  tr !! j = Some (c, xs) →
  ((λ c, scale_column c c) <$> tr) !! j
  = Some (c, scale (Pandas.col_min xs) (Pandas.col_max xs) <$> xs).
Proof. intros Hj. by rewrite list_lookup_fmap, Hj. Qed.

Lemma scale_column_zip_lookup (tr te : DataFrame) (j : nat)
    (c c' : string) (xs ys : list float64) :
  tr !! j = Some (c, xs) → te !! j = Some (c', ys) →
  zip_with scale_column tr te !! j
  = Some (c', scale (Pandas.col_min xs) (Pandas.col_max xs) <$> ys).
Proof. intros Hj Hj'. rewrite lookup_zip_with, Hj. cbn. by rewrite Hj'. Qed.

Lemma keys_scale_column (tr : DataFrame) :
  Pandas.keys ((λ c, scale_column c c) <$> tr) = Pandas.keys tr.
Proof. unfold Pandas.keys. by rewrite <- list_fmap_compose. Qed.

Lemma keys_scale_column_zip (tr te : DataFrame) :
  Pandas.keys te = Pandas.keys tr →
  Pandas.keys (zip_with scale_column tr te) = Pandas.keys te.
Proof.
  unfold Pandas.keys. revert te.
  induction tr as [|c tr IH]; intros [|c' te] E; simplify_eq/=; [done|].
  f_equal. by apply IH.
Qed.

(** X5. Whenever [normalize_data] returns, the train frame it returns has
    the columns of the train frame it was given, under the same labels in
    the same order and with as many rows; so has the held-out frame when
    its labels are those of the train frame. *)
Theorem normalize_data_keeps_shape (dd dd' : dict) (w w' : World) :
  normalize_data dd w = (w', Ok dd') →
  ∃ tr te tr' te',
    dd !! "train_features" = Some (Frame tr) ∧
    dd !! "test_features" = Some (Frame te) ∧
    dd' !! "train_features" = Some (Frame tr') ∧
    dd' !! "test_features" = Some (Frame te') ∧
    Pandas.keys tr' = Pandas.keys tr ∧
    (∀ j c xs, tr !! j = Some (c, xs) →
       ∃ out, tr' !! j = Some (c, out) ∧ length out = length xs) ∧
    (Pandas.keys te = Pandas.keys tr →
       Pandas.keys te' = Pandas.keys te ∧
       ∀ j c ys, te !! j = Some (c, ys) →
         ∃ out, te' !! j = Some (c, out) ∧ length out = length ys).
Proof.
  intros Hrun.
  destruct (normalize_data_Ok_inv _ _ _ _ Hrun) as (tr & te & Htr & Hte).
  rewrite (normalize_data_run _ w tr te Htr Hte) in Hrun. injection Hrun as _ <-.
  exists tr, te. eexists _, _. split; [done|]. split; [done|].
  split; [by rewrite lookup_insert_ne, lookup_insert_eq|].
  split; [by rewrite lookup_insert_eq|].
  rewrite !standardize_aligned, zip_with_diag by done.
  split; [apply keys_scale_column|]. split.
  - intros j c xs Hj. eexists. split; [by apply scale_column_lookup|].
    by rewrite length_fmap.
  - intros Hkeys. rewrite standardize_aligned by done.
    split; [by apply keys_scale_column_zip|].
    intros j c ys Hj.
    destruct (tr !! j) as [[c' xs]|] eqn:Hj'.
    + eexists. split; [by eapply scale_column_zip_lookup|]. by rewrite length_fmap.
    + apply lookup_ge_None in Hj'. apply lookup_lt_Some in Hj.
      pose proof (f_equal length Hkeys) as Hlen. unfold Pandas.keys in Hlen.
      rewrite !length_fmap in Hlen. lia.
Qed.

Lemma normalize_data_keeps_shape_witness :
  ∃ w' dd' tr te tr' te',
    normalize_data Example.dictionary Example.world = (w', Ok dd') ∧
    Example.dictionary !! "train_features" = Some (Frame tr) ∧
    Example.dictionary !! "test_features" = Some (Frame te) ∧
    dd' !! "train_features" = Some (Frame tr') ∧
    dd' !! "test_features" = Some (Frame te') ∧
    Pandas.keys tr' = Pandas.keys tr ∧
    (∀ j c xs, tr !! j = Some (c, xs) →
       ∃ out, tr' !! j = Some (c, out) ∧ length out = length xs) ∧
    (Pandas.keys te = Pandas.keys tr →
       Pandas.keys te' = Pandas.keys te ∧
       ∀ j c ys, te !! j = Some (c, ys) →
         ∃ out, te' !! j = Some (c, out) ∧ length out = length ys).
Proof.
  pose proof (normalize_data_run Example.dictionary Example.world
                Example.train_features Example.test_features eq_refl eq_refl) as Hrun.
  eexists _, _.
  destruct (normalize_data_keeps_shape Example.dictionary _ Example.world _ Hrun)
    as (tr & te & tr' & te' & H).
  exists tr, te, tr', te'. split; [exact Hrun|exact H].
Defined.

Lemma scale_nan_cell (mn mx : float64) : scale mn mx F64.nan = F64.nan.
Proof.
  unfold scale. cbn [minus times divide lit arith_float64].
  assert (F64.sub F64.nan mn = F64.nan) as -> by by destruct mn.
  change (F64.mul (F64.of_Z 2) F64.nan) with F64.nan.
  assert (F64.div F64.nan (F64.sub mx mn) = F64.nan) as -> by by destruct (F64.sub mx mn).
  reflexivity.
Qed.

Lemma scale_nan_parameters (v : float64) : scale F64.nan F64.nan v = F64.nan.
Proof.
  unfold scale. cbn [minus times divide lit arith_float64].
  assert (F64.sub v F64.nan = F64.nan) as -> by by destruct v.
  reflexivity.
Qed.

(** X6. A NaN cell stays NaN: in the frames [normalize_data] returns, every
    cell that was NaN in the train frame, or in a held-out frame with the
    train frame's labels, is NaN. *)
Theorem normalize_data_keeps_nan (dd : dict) (w : World) (tr te : DataFrame) :
  dd !! "train_features" = Some (Frame tr) →
  dd !! "test_features" = Some (Frame te) →
  Pandas.keys te = Pandas.keys tr →
  ∃ w' dd' tr' te',
    normalize_data dd w = (w', Ok dd') ∧
    dd' !! "train_features" = Some (Frame tr') ∧
    dd' !! "test_features" = Some (Frame te') ∧
    (∀ j c xs i, tr !! j = Some (c, xs) → xs !! i = Some F64.nan →
       ∃ out, tr' !! j = Some (c, out) ∧ out !! i = Some F64.nan) ∧
    (∀ j c ys i, te !! j = Some (c, ys) → ys !! i = Some F64.nan →
       ∃ out, te' !! j = Some (c, out) ∧ out !! i = Some F64.nan).
Proof.
  intros Htr Hte Hkeys.
  eexists _, _, ((λ c, scale_column c c) <$> tr), (zip_with scale_column tr te).
  split; [by apply normalize_data_run|].
  split; [by rewrite lookup_insert_ne, lookup_insert_eq,
             standardize_aligned, zip_with_diag|].
  split; [by rewrite lookup_insert_eq, standardize_aligned|].
  split.
  - intros j c xs i Hj Hi. eexists. split; [by apply scale_column_lookup|].
    rewrite list_lookup_fmap, Hi. exact (f_equal Some (scale_nan_cell _ _)).
  - intros j c ys i Hj Hi.
    destruct (tr !! j) as [[c' xs]|] eqn:Hj'.
    + eexists. split; [by eapply scale_column_zip_lookup|].
      rewrite list_lookup_fmap, Hi. exact (f_equal Some (scale_nan_cell _ _)).
    + apply lookup_ge_None in Hj'. apply lookup_lt_Some in Hj.
      pose proof (f_equal length Hkeys) as Hlen. unfold Pandas.keys in Hlen.
      rewrite !length_fmap in Hlen. lia.
Qed.

Lemma normalize_data_keeps_nan_witness :
  ∃ w' dd' tr' te',
    normalize_data ExampleTraining.gappy_dictionary Example.world = (w', Ok dd') ∧
    dd' !! "train_features" = Some (Frame tr') ∧
    dd' !! "test_features" = Some (Frame te') ∧
    (∀ j c xs i, ExampleTraining.gappy_train !! j = Some (c, xs) →
       xs !! i = Some F64.nan →
       ∃ out, tr' !! j = Some (c, out) ∧ out !! i = Some F64.nan) ∧
    (∀ j c ys i, ExampleTraining.gappy_test !! j = Some (c, ys) →
       ys !! i = Some F64.nan →
       ∃ out, te' !! j = Some (c, out) ∧ out !! i = Some F64.nan).
Proof.
  apply (normalize_data_keeps_nan ExampleTraining.gappy_dictionary Example.world
           ExampleTraining.gappy_train ExampleTraining.gappy_test); reflexivity.
Defined.

(** The reductions pick one of the cells, unless every cell is NaN. *)
Lemma nanmin_elem (xs : list float64) (m : float64) :
  Pandas.nanmin xs = Some m → m ∈ xs.
Proof.
  revert m. induction xs as [|x xs IH]; intros m; simpl; [done|].
  destruct (F64.is_nan x).
  - intros Hm. apply elem_of_cons. right. by apply IH.
  - destruct (Pandas.nanmin xs) as [m'|]; intros [= <-].
    + destruct (F64.ltb m' x); apply elem_of_cons; [right; by apply IH|by left].
    + apply elem_of_cons. by left.
Qed.

Lemma nanmax_elem (xs : list float64) (m : float64) :
  Pandas.nanmax xs = Some m → m ∈ xs.
Proof.
  revert m. induction xs as [|x xs IH]; intros m; simpl; [done|].
  destruct (F64.is_nan x).
  - intros Hm. apply elem_of_cons. right. by apply IH.
  - destruct (Pandas.nanmax xs) as [m'|]; intros [= <-].
    + destruct (F64.ltb x m'); apply elem_of_cons; [right; by apply IH|by left].
    + apply elem_of_cons. by left.
Qed.

Lemma nanmin_all_nan (xs : list float64) :
  Forall (λ v, F64.is_nan v = true) xs → Pandas.nanmin xs = None.
Proof. induction 1 as [|x xs Hx _ IH]; simpl; [done|]. by rewrite Hx. Qed.

Lemma nanmax_all_nan (xs : list float64) :
  Forall (λ v, F64.is_nan v = true) xs → Pandas.nanmax xs = None.
Proof. induction 1 as [|x xs Hx _ IH]; simpl; [done|]. by rewrite Hx. Qed.

Lemma col_min_valid (xs : list float64) :
  Forall (λ v, F64.valid v = true) xs → F64.valid (Pandas.col_min xs) = true.
Proof.
  intros Hv. unfold Pandas.col_min. destruct (Pandas.nanmin xs) as [m|] eqn:Hm; [|done].
  apply nanmin_elem in Hm. by eapply (proj1 (Forall_forall _ _) Hv).
Qed.

Lemma col_max_valid (xs : list float64) :
  Forall (λ v, F64.valid v = true) xs → F64.valid (Pandas.col_max xs) = true.
Proof.
  intros Hv. unfold Pandas.col_max. destruct (Pandas.nanmax xs) as [m|] eqn:Hm; [|done].
  apply nanmax_elem in Hm. by eapply (proj1 (Forall_forall _ _) Hv).
Qed.

Lemma col_min_elem (xs : list float64) :
  F64.is_finite (Pandas.col_min xs) = true → Pandas.col_min xs ∈ xs.
Proof.
  unfold Pandas.col_min. destruct (Pandas.nanmin xs) as [m|] eqn:Hm; [|done].
  intros _. by apply nanmin_elem.
Qed.

(** X7. In a train column of binary64 numbers whose minimum is finite and
    below its maximum, [normalize_data] sends every cell that holds the
    minimum to exactly [-1.0], and there is such a cell. *)
Theorem normalize_data_minimum_becomes_minus_one
    (dd : dict) (w : World) (tr te : DataFrame) (j : nat) (c : string)
    (xs : list float64) :
  dd !! "train_features" = Some (Frame tr) →
  dd !! "test_features" = Some (Frame te) →
  tr !! j = Some (c, xs) →
  Forall (λ v, F64.valid v = true) xs →
  F64.is_finite (Pandas.col_min xs) = true →
  F64.ltb (Pandas.col_min xs) (Pandas.col_max xs) = true →
  ∃ w' dd' tr' out,
    normalize_data dd w = (w', Ok dd') ∧
    dd' !! "train_features" = Some (Frame tr') ∧
    tr' !! j = Some (c, out) ∧
    (∃ i, xs !! i = Some (Pandas.col_min xs)) ∧
    (∀ i, xs !! i = Some (Pandas.col_min xs) → out !! i = Some (F64.of_Z (-1))).
Proof.
  intros Htr Hte Hj Hvalid Hfin Hlt.
  eexists _, _, ((λ c, scale_column c c) <$> tr), _.
  split; [by apply normalize_data_run|].
  split; [by rewrite lookup_insert_ne, lookup_insert_eq,
             standardize_aligned, zip_with_diag|].
  split; [by apply scale_column_lookup|].
  split; [by apply list_elem_of_lookup, col_min_elem|].
  intros i Hi. rewrite list_lookup_fmap, Hi.
  refine (f_equal Some (scale_binary64_min _ _ _ _ Hfin Hlt));
    [by apply col_min_valid|by apply col_max_valid].
Qed.

Lemma normalize_data_minimum_becomes_minus_one_witness :
  ∃ w' dd' tr' out,
    normalize_data Example.dictionary Example.world = (w', Ok dd') ∧
    dd' !! "train_features" = Some (Frame tr') ∧
    tr' !! 0%nat = Some ("a", out) ∧
    (∃ i, [F64.of_Z 0; F64.of_Z 10] !! i
          = Some (Pandas.col_min [F64.of_Z 0; F64.of_Z 10])) ∧
    (∀ i, [F64.of_Z 0; F64.of_Z 10] !! i
          = Some (Pandas.col_min [F64.of_Z 0; F64.of_Z 10]) →
          out !! i = Some (F64.of_Z (-1))).
Proof.
  apply (normalize_data_minimum_becomes_minus_one
           Example.dictionary Example.world
           Example.train_features Example.test_features 0 "a"
           [F64.of_Z 0; F64.of_Z 10]); try reflexivity.
  repeat constructor.
Defined.

(** X8. A train column in which every cell is NaN, an empty column among
    them, has NaN for its minimum and maximum, and [normalize_data] turns
    every cell of that column into NaN, in the train frame and in a
    held-out frame with the train frame's labels. *)
Theorem normalize_data_column_without_numbers
    (dd : dict) (w : World) (tr te : DataFrame) (j : nat)
    (c c' : string) (xs ys : list float64) :
  dd !! "train_features" = Some (Frame tr) →
  dd !! "test_features" = Some (Frame te) →
  Pandas.keys te = Pandas.keys tr →
  tr !! j = Some (c, xs) →
  te !! j = Some (c', ys) →
  Forall (λ v, F64.is_nan v = true) xs →
  Pandas.col_min xs = F64.nan ∧ Pandas.col_max xs = F64.nan ∧
  ∃ w' dd' tr' te',
    normalize_data dd w = (w', Ok dd') ∧
    dd' !! "train_features" = Some (Frame tr') ∧
    dd' !! "test_features" = Some (Frame te') ∧
    tr' !! j = Some (c, replicate (length xs) F64.nan) ∧
    te' !! j = Some (c', replicate (length ys) F64.nan).
Proof.
  intros Htr Hte Hkeys Hj Hj' Hnan.
  assert (Pandas.col_min xs = F64.nan) as Hmin
    by (unfold Pandas.col_min; by rewrite nanmin_all_nan).
  assert (Pandas.col_max xs = F64.nan) as Hmax
    by (unfold Pandas.col_max; by rewrite nanmax_all_nan).
  split; [done|]. split; [done|].
  assert (∀ zs : list float64,
            scale (Pandas.col_min xs) (Pandas.col_max xs) <$> zs
            = replicate (length zs) F64.nan) as Hcells.
  { intros zs. rewrite Hmin, Hmax. induction zs as [|z zs IH]; [done|].
    cbn [fmap list_fmap length replicate]. f_equal; [apply scale_nan_parameters|apply IH]. }
  eexists _, _, ((λ c, scale_column c c) <$> tr), (zip_with scale_column tr te).
  split; [by apply normalize_data_run|].
  split; [by rewrite lookup_insert_ne, lookup_insert_eq,
             standardize_aligned, zip_with_diag|].
  split; [by rewrite lookup_insert_eq, standardize_aligned|].
  split.
  - by rewrite (scale_column_lookup tr j c xs), Hcells.
  - by rewrite (scale_column_zip_lookup tr te j c c' xs ys), Hcells.
Qed.

Lemma normalize_data_column_without_numbers_witness :
  Pandas.col_min [F64.nan; F64.nan; F64.nan] = F64.nan ∧
  Pandas.col_max [F64.nan; F64.nan; F64.nan] = F64.nan ∧
  ∃ w' dd' tr' te',
    normalize_data ExampleTraining.gappy_dictionary Example.world = (w', Ok dd') ∧
    dd' !! "train_features" = Some (Frame tr') ∧
    dd' !! "test_features" = Some (Frame te') ∧
    tr' !! 1%nat = Some ("b", replicate 3 F64.nan) ∧
    te' !! 1%nat = Some ("b", replicate 2 F64.nan).
Proof.
  apply (normalize_data_column_without_numbers
           ExampleTraining.gappy_dictionary Example.world
           ExampleTraining.gappy_train ExampleTraining.gappy_test 1 "b" "b"
           [F64.nan; F64.nan; F64.nan] [F64.of_Z 1; F64.of_Z 2]); try reflexivity.
  repeat constructor.
Defined.

(* ===================================================================== *)
(** ** fit: what it reads and what it leaves alone *)
(* ===================================================================== *)

Section FitFacts.
Context `{Host}.


(** X10. The outcome of [fit] depends on the dictionary only through the
    five entries it reads: two dictionaries that agree on the features and
    labels of both partitions and on the weights of the test partition give
    the same outcome. The weights of the train partition are never used. *)
Theorem fit_reads_five_entries (dd dd' : dict) (w : World) :
  (∀ key, key ∈ ["train_features"; "train_labels"; "test_features";
                 "test_labels"; "test_weights"] →
          dd' !! key = dd !! key) →
  fit dd' w = fit dd w.
Proof.
  intros Hagree. unfold fit, subscript.
  rewrite !Hagree; [done|set_solver..].
Qed.

(** X11. [fit] reads its entries in the order train features, train
    labels, test features, test labels, test weights, and stops at the
    first one that is missing: it raises [KeyError] for that key. *)
Theorem fit_missing_entry (dd : dict) (w : World)
    (present rest : list string) (key : string) :
  ["train_features"; "train_labels"; "test_features"; "test_labels"; "test_weights"]
    = present ++ key :: rest →
  (∀ k, k ∈ present → is_Some (dd !! k)) →
  dd !! key = None →
  fit dd w = (w, Raise (KeyError key)).
Proof.
  intros Horder Hpresent Hkey.
  assert (∀ k, k ∈ present → ∃ v, dd !! k = Some v) as Hvalues
    by (intros k Hk; by apply Hpresent).
  clear Hpresent. unfold fit.
  destruct present as [|p1 [|p2 [|p3 [|p4 [|p5 present]]]]]; simplify_eq/=.
  - by obj_run.
  - destruct (Hvalues "train_features") as [v1 H1]; [set_solver|]. by obj_run.
  - destruct (Hvalues "train_features") as [v1 H1]; [set_solver|].
    destruct (Hvalues "train_labels") as [v2 H2]; [set_solver|]. by obj_run.
  - destruct (Hvalues "train_features") as [v1 H1]; [set_solver|].
    destruct (Hvalues "train_labels") as [v2 H2]; [set_solver|].
    destruct (Hvalues "test_features") as [v3 H3]; [set_solver|]. by obj_run.
  - destruct (Hvalues "train_features") as [v1 H1]; [set_solver|].
    destruct (Hvalues "train_labels") as [v2 H2]; [set_solver|].
    destruct (Hvalues "test_features") as [v3 H3]; [set_solver|].
    destruct (Hvalues "test_labels") as [v4 H4]; [set_solver|]. by obj_run.
  - by destruct present.
Qed.

End FitFacts.

Lemma fit_reads_five_entries_witness :
  fit (H := Example.host) (delete "train_weights" Example.dictionary) Example.world
  = fit (H := Example.host) Example.dictionary Example.world.
Proof.
  apply (fit_reads_five_entries (H := Example.host)
           Example.dictionary (delete "train_weights" Example.dictionary) Example.world).
  intros key Hkey. apply lookup_delete_ne. intros <-.
  repeat (apply elem_of_cons in Hkey as [Hkey|Hkey]; [discriminate|]).
  by apply elem_of_nil in Hkey.
Defined.

Lemma fit_missing_entry_witness :
  fit (H := Example.host) (delete "test_weights" Example.dictionary) Example.world
  = (Example.world, Raise (KeyError "test_weights")).
Proof.
  apply (fit_missing_entry (H := Example.host)
           (delete "test_weights" Example.dictionary) Example.world
           ["train_features"; "train_labels"; "test_features"; "test_labels"] []
           "test_weights"); [reflexivity| |reflexivity].
  intros k Hk.
  repeat (apply elem_of_cons in Hk as [->|Hk]; [by eexists|]).
  by apply elem_of_nil in Hk.
Defined.

(* ===================================================================== *)
(** ** predict: how it fails and what it prints *)
(* ===================================================================== *)

Section PredictFacts.
Context `{Host}.

(** X12. When the kitchen's apply-from-stored-parameters operation raises,
    [predict] raises the same error and stops there: the world is as that
    operation left it, so [predict] has not written the prediction
    features into the kitchen and has printed nothing. *)
Theorem predict_normalization_error
    (self : Self) (unfiltered_dataframe : DataFrame) (first : bool)
    (w w1 w2 w3 : World) (filtered : DataFrame) (labels : value) (e : exn) :
  find_features unfiltered_dataframe w = (w1, Ok tt) →
  filter_features unfiltered_dataframe (training_features_list (dk w1)) [] false w1
    = (w2, Ok (filtered, labels)) →
  normalize_data_from_metadata filtered w2 = (w3, Raise e) →
  predict self unfiltered_dataframe first w = (w3, Raise e).
Proof.
  intros Hfind Hfilter Hnorm. unfold predict.
  rewrite bind_run, Hfind. py_run. rewrite Hfilter. py_run. cbn [fst].
  by rewrite Hnorm.
Qed.

(** X13. The classifier is given what the kitchen holds under
    ["prediction_features"] after the cleaning hook has run, not the frame
    [predict] stored there: when the hook has removed the entry, [predict]
    raises [KeyError] for that key without consulting the classifier or
    printing. *)
Theorem predict_features_removed_by_hook
    (self : Self) (unfiltered_dataframe : DataFrame) (first : bool)
    (w w1 w2 w3 w4 : World) (filtered normalized : DataFrame) (labels : value) :
  find_features unfiltered_dataframe w = (w1, Ok tt) →
  filter_features unfiltered_dataframe (training_features_list (dk w1)) [] false w1
    = (w2, Ok (filtered, labels)) →
  normalize_data_from_metadata filtered w2 = (w3, Ok normalized) →
  data_cleaning_predict normalized (with_prediction_features w3 normalized) = (w4, Ok tt) →
  data_dictionary (dk w4) !! "prediction_features" = None →
  predict self unfiltered_dataframe first w
  = (w4, Raise (KeyError "prediction_features")).
Proof.
  intros Hfind Hfilter Hnorm Hclean Hfeat. unfold predict.
  rewrite bind_run, Hfind. py_run. rewrite Hfilter. py_run. cbn [fst].
  rewrite Hnorm. py_run.
  fold (with_prediction_features w3 normalized). rewrite Hclean. by obj_run.
Qed.

(** X14. When the classifier raises, [predict] raises the same error: the
    prediction features are already in the kitchen, nothing is printed. *)
Theorem predict_classifier_error
    (self : Self) (unfiltered_dataframe : DataFrame) (first : bool)
    (w w1 w2 w3 w4 : World) (filtered normalized : DataFrame)
    (labels features : value) (e : exn) :
  find_features unfiltered_dataframe w = (w1, Ok tt) →
  filter_features unfiltered_dataframe (training_features_list (dk w1)) [] false w1
    = (w2, Ok (filtered, labels)) →
  normalize_data_from_metadata filtered w2 = (w3, Ok normalized) →
  data_cleaning_predict normalized (with_prediction_features w3 normalized) = (w4, Ok tt) →
  data_dictionary (dk w4) !! "prediction_features" = Some features →
  predict_proba (model self) features = Raise e →
  predict self unfiltered_dataframe first w = (w4, Raise e).
Proof.
  intros Hfind Hfilter Hnorm Hclean Hfeat Hproba. unfold predict.
  rewrite bind_run, Hfind. py_run. rewrite Hfilter. py_run. cbn [fst].
  rewrite Hnorm. py_run.
  fold (with_prediction_features w3 normalized). rewrite Hclean. py_run.
  by rewrite Hproba.
Qed.

(** X15. When the array of probabilities has not one column per class of
    the classifier, [predict] raises [ValueError] in building the frame:
    nothing is printed and no pair is returned. *)
Theorem predict_shape_mismatch
    (self : Self) (unfiltered_dataframe : DataFrame) (first : bool)
    (w w1 w2 w3 w4 : World) (filtered normalized : DataFrame)
    (labels features : value) (predictions : ndarray) :
  find_features unfiltered_dataframe w = (w1, Ok tt) →
  filter_features unfiltered_dataframe (training_features_list (dk w1)) [] false w1
    = (w2, Ok (filtered, labels)) →
  normalize_data_from_metadata filtered w2 = (w3, Ok normalized) →
  data_cleaning_predict normalized (with_prediction_features w3 normalized) = (w4, Ok tt) →
  data_dictionary (dk w4) !! "prediction_features" = Some features →
  predict_proba (model self) features = Ok predictions →
  ncols predictions ≠ length (classes_ (model self)) →
  predict self unfiltered_dataframe first w = (w4, Raise ValueError).
Proof.
  intros Hfind Hfilter Hnorm Hclean Hfeat Hproba Hshape. unfold predict.
  rewrite bind_run, Hfind. py_run. rewrite Hfilter. py_run. cbn [fst].
  rewrite Hnorm. py_run.
  fold (with_prediction_features w3 normalized). rewrite Hclean. py_run.
  rewrite Hproba. py_run. unfold DataFrame_of_array.
  by rewrite decide_False.
Qed.

(** X16. When [predict] returns, it has printed exactly the frame it
    returns, once and after everything else, and the kitchen is the one
    the cleaning hook left. *)
Theorem predict_prints_returned_frame
    (self : Self) (unfiltered_dataframe : DataFrame) (first : bool)
    (w w1 w2 w3 w4 w' : World) (filtered normalized pred_df : DataFrame)
    (labels : value) (mask : list Z) :
  find_features unfiltered_dataframe w = (w1, Ok tt) →
  filter_features unfiltered_dataframe (training_features_list (dk w1)) [] false w1
    = (w2, Ok (filtered, labels)) →
  normalize_data_from_metadata filtered w2 = (w3, Ok normalized) →
  data_cleaning_predict normalized (with_prediction_features w3 normalized) = (w4, Ok tt) →
  predict self unfiltered_dataframe first w = (w', Ok (pred_df, mask)) →
  stdout w' = stdout w4 ++ [pred_df] ∧ dk w' = dk w4.
Proof.
  intros Hfind Hfilter Hnorm Hclean. unfold predict.
  rewrite bind_run, Hfind. py_run. rewrite Hfilter. py_run. cbn [fst].
  rewrite Hnorm. py_run.
  fold (with_prediction_features w3 normalized). rewrite Hclean. py_run.
  destruct (data_dictionary (dk w4) !! "prediction_features") as [features|] eqn:Hfeat;
    [|by obj_run].
  py_run.
  destruct (predict_proba _ _) as [predictions|e]; py_run; [|done].
  destruct (DataFrame_of_array _ _) as [df|e]; py_run; [|done].
  by intros [= <- <- _].
Qed.

End PredictFacts.

Lemma predict_normalization_error_witness :
  predict (H := Example.host) Example.self Example.unfiltered_dataframe false
    ExamplePrediction.fresh_world
  = (ExamplePrediction.fresh_world, Raise (KeyError "a_min")).
Proof.
  apply (predict_normalization_error (H := Example.host)
           Example.self Example.unfiltered_dataframe false
           ExamplePrediction.fresh_world ExamplePrediction.fresh_world
           ExamplePrediction.fresh_world ExamplePrediction.fresh_world
           Example.unfiltered_dataframe (Labels []) (KeyError "a_min")); reflexivity.
Defined.

Lemma predict_features_removed_by_hook_witness :
  predict (H := ExamplePrediction.dropping_host) ExamplePrediction.dropping_self
    Example.unfiltered_dataframe false Example.prediction_world
  = (Example.prediction_world, Raise (KeyError "prediction_features")).
Proof.
  apply (predict_features_removed_by_hook (H := ExamplePrediction.dropping_host)
           ExamplePrediction.dropping_self Example.unfiltered_dataframe false
           Example.prediction_world Example.prediction_world
           Example.prediction_world Example.prediction_world
           Example.prediction_world
           Example.unfiltered_dataframe ExampleRun.normalized (Labels []));
    reflexivity.
Defined.

Lemma predict_classifier_error_witness :
  predict (H := ExamplePrediction.rejecting_host) ExamplePrediction.rejecting_self
    Example.unfiltered_dataframe false Example.prediction_world
  = (ExampleRun.cleaned_world, Raise (Propagated "CatBoostError")).
Proof.
  apply (predict_classifier_error (H := ExamplePrediction.rejecting_host)
           ExamplePrediction.rejecting_self Example.unfiltered_dataframe false
           Example.prediction_world Example.prediction_world
           Example.prediction_world Example.prediction_world
           ExampleRun.cleaned_world
           Example.unfiltered_dataframe ExampleRun.normalized
           (Labels []) (Frame ExampleRun.normalized) (Propagated "CatBoostError"));
    reflexivity.
Defined.

Lemma predict_shape_mismatch_witness :
  predict (H := ExamplePrediction.three_class_host) ExamplePrediction.three_class_self
    Example.unfiltered_dataframe false Example.prediction_world
  = (ExampleRun.cleaned_world, Raise ValueError).
Proof.
  apply (predict_shape_mismatch (H := ExamplePrediction.three_class_host)
           ExamplePrediction.three_class_self Example.unfiltered_dataframe false
           Example.prediction_world Example.prediction_world
           Example.prediction_world Example.prediction_world
           ExampleRun.cleaned_world
           Example.unfiltered_dataframe ExampleRun.normalized
           (Labels []) (Frame ExampleRun.normalized) ExampleRun.predictions);
    try reflexivity.
  discriminate.
Defined.

Lemma predict_prints_returned_frame_witness :
  ∃ w' pred_df,
    predict (H := Example.host) Example.self Example.unfiltered_dataframe false
      Example.prediction_world = (w', Ok (pred_df, [1])) ∧
    stdout w' = [] ++ [pred_df] ∧ dk w' = dk ExampleRun.cleaned_world.
Proof.
  pose (out := predict (H := Example.host) Example.self Example.unfiltered_dataframe
                 false Example.prediction_world).
  exists out.1, [("down", [Example.half]); ("up", [Example.half])].
  split; [reflexivity|].
  apply (predict_prints_returned_frame (H := Example.host)
           Example.self Example.unfiltered_dataframe false
           Example.prediction_world Example.prediction_world
           Example.prediction_world Example.prediction_world
           ExampleRun.cleaned_world out.1
           Example.unfiltered_dataframe ExampleRun.normalized
           [("down", [Example.half]); ("up", [Example.half])] (Labels []) [1]);
    reflexivity.
Defined.

(* ===================================================================== *)
(** ** train *)
(* ===================================================================== *)

Lemma dk_data_dictionary_run (w : World) :
  dk_data_dictionary w = (w, Ok (data_dictionary (dk w))).
Proof. done. Qed.

Lemma columns_run (df : DataFrame) (w : World) :
  columns (Frame df) w = (w, Ok (Pandas.keys df)).
Proof. done. Qed.

Lemma len_run (df : DataFrame) (w : World) :
  len (Frame df) w = (w, Ok (Pandas.nrows df)).
Proof. done. Qed.

Ltac train_step :=
  first
    [ obj_step
    | rewrite dk_data_dictionary_run
    | rewrite columns_run
    | rewrite len_run ].

Ltac train_run := repeat (train_step; cbv beta iota).

Section TrainFacts.
Context `{Host} `{TrainingHost}.

(** [train] up to the end of the cleaning hook, with a logger that only
    logs. *)
Lemma train_run_to_cleaning (unfiltered_dataframe : DataFrame) (pair : string)
    (w w1 w2 : World) (filtered : DataFrame * value) (o : dictionary_object)
    (tr te : DataFrame) (k : dictionary_object → Py Classifier) :
  (∀ msg w, logger_info msg w = (w, Ok tt)) →
  filter_features unfiltered_dataframe (training_features_list (dk w))
    (label_list (dk w)) true w = (w1, Ok filtered) →
  make_train_test_datasets filtered.1 filtered.2 w1 = (w2, Ok o) →
  current o w2 !! "train_features" = Some (Frame tr) →
  current o w2 !! "test_features" = Some (Frame te) →
  (_ ← logger_info ("--------------------Starting training " +:+ pair
                    +:+ " --------------------");
   features ← gets training_features_list;
   labels ← gets label_list;
   filtered ← filter_features unfiltered_dataframe features labels true;
   data_dictionary ← make_train_test_datasets filtered.1 filtered.2;
   data_dictionary ← normalize_data_in_place data_dictionary;
   k data_dictionary) w
  = k (holding o
         (<["test_features" := Frame (standardize te (Pandas.min tr) (Pandas.max tr))]>
            (<["train_features" := Frame (standardize tr (Pandas.min tr) (Pandas.max tr))]>
               (current o w2))))
      (with_parameters tr
         (with_content o
            (<["test_features" := Frame (standardize te (Pandas.min tr) (Pandas.max tr))]>
               (<["train_features" := Frame (standardize tr (Pandas.min tr) (Pandas.max tr))]>
                  (current o w2))) w2)).
Proof.
  intros Hlogger Hfilter Hsplit Htr Hte.
  rewrite bind_run, Hlogger. py_run. rewrite Hfilter. py_run. rewrite Hsplit. py_run.
  by rewrite (normalize_data_in_place_returns o w2 tr te Htr Hte).
Qed.

(** X17. With a logger that only logs, [train] fits the classifier on the
    dictionary object as it is after normalisation and after the cleaning
    hook: its outcome is the outcome of [fit] on that content. For a
    dictionary that the kitchen keeps, this is the kitchen's dictionary as
    the hook left it; for a dictionary of its own, the normalised one. *)
Theorem train_fits_dictionary_after_cleaning
    (unfiltered_dataframe : DataFrame) (pair : string)
    (w w1 w2 w4 : World) (filtered : DataFrame * value) (o : dictionary_object)
    (tr te kept seen : DataFrame) :
  (∀ msg w, logger_info msg w = (w, Ok tt)) →
  filter_features unfiltered_dataframe (training_features_list (dk w))
    (label_list (dk w)) true w = (w1, Ok filtered) →
  make_train_test_datasets filtered.1 filtered.2 w1 = (w2, Ok o) →
  current o w2 !! "train_features" = Some (Frame tr) →
  current o w2 !! "test_features" = Some (Frame te) →
  data_cleaning_train
    (with_parameters tr (with_content o (normalized (current o w2) tr te) w2))
    = (w4, Ok tt) →
  data_dictionary (dk w4) !! "train_features" = Some (Frame kept) →
  current (holding o (normalized (current o w2) tr te)) w4 !! "train_features"
    = Some (Frame seen) →
  train unfiltered_dataframe pair w
  = fit (current (holding o (normalized (current o w2) tr te)) w4) w4.
Proof.
  intros Hlogger Hfilter Hsplit Htr Hte Hclean Hkept Hseen. unfold train.
  rewrite (train_run_to_cleaning _ _ w w1 w2 filtered o tr te) by done.
  fold (normalized (current o w2) tr te).
  rewrite bind_run, Hclean. train_run. rewrite Hlogger. train_run.
  rewrite Hlogger. train_run.
  destruct (fit _ w4) as [w5 [clf|e]]; [|done].
  by rewrite bind_run, Hlogger.
Qed.

(** X18. When, after the cleaning hook, the kitchen's own data dictionary
    has no ["train_features"] entry, [train] raises [KeyError] for that key
    while it prepares its first count for the log: the parameters are
    recorded by then, and no classifier is fitted. *)
Theorem train_needs_kitchen_dictionary
    (unfiltered_dataframe : DataFrame) (pair : string)
    (w w1 w2 w4 : World) (filtered : DataFrame * value) (o : dictionary_object)
    (tr te : DataFrame) :
  (∀ msg w, logger_info msg w = (w, Ok tt)) →
  filter_features unfiltered_dataframe (training_features_list (dk w))
    (label_list (dk w)) true w = (w1, Ok filtered) →
  make_train_test_datasets filtered.1 filtered.2 w1 = (w2, Ok o) →
  current o w2 !! "train_features" = Some (Frame tr) →
  current o w2 !! "test_features" = Some (Frame te) →
  data_cleaning_train
    (with_parameters tr (with_content o (normalized (current o w2) tr te) w2))
    = (w4, Ok tt) →
  data_dictionary (dk w4) !! "train_features" = None →
  train unfiltered_dataframe pair w = (w4, Raise (KeyError "train_features")).
Proof.
  intros Hlogger Hfilter Hsplit Htr Hte Hclean Hkept. unfold train.
  rewrite (train_run_to_cleaning _ _ w w1 w2 filtered o tr te) by done.
  fold (normalized (current o w2) tr te).
  rewrite bind_run, Hclean. by train_run.
Qed.

(** X19. When the dictionary the kitchen hands out has a train frame but
    no ["test_features"] entry, [train] raises [KeyError] for that key out
    of the normalisation: the cleaning hook is not run and no classifier is
    fitted. *)
Theorem train_stops_without_test_features
    (unfiltered_dataframe : DataFrame) (pair : string)
    (w w1 w2 : World) (filtered : DataFrame * value) (o : dictionary_object)
    (tr : DataFrame) :
  (∀ msg w, logger_info msg w = (w, Ok tt)) →
  filter_features unfiltered_dataframe (training_features_list (dk w))
    (label_list (dk w)) true w = (w1, Ok filtered) →
  make_train_test_datasets filtered.1 filtered.2 w1 = (w2, Ok o) →
  current o w2 !! "train_features" = Some (Frame tr) →
  current o w2 !! "test_features" = None →
  train unfiltered_dataframe pair w
  = (with_content o
       (<["train_features" := Frame (standardize tr (Pandas.min tr) (Pandas.max tr))]>
          (current o w2)) w2,
     Raise (KeyError "test_features")).
Proof.
  intros Hlogger Hfilter Hsplit Htr Hte. unfold train.
  rewrite bind_run, Hlogger. py_run. rewrite Hfilter. py_run. rewrite Hsplit. py_run.
  by rewrite (normalize_data_in_place_no_test o w2 tr Htr Hte).
Qed.

(** X20. With a kitchen that keeps the dictionary it hands out, a cleaning
    hook that changes nothing and a logger that only logs, [train] on
    partitions with the same feature columns fits the classifier on the
    normalised frames: the held-out frame, scaled with the train frame's
    parameters, is the training data with the test labels and weights, the
    normalised train frame with the train labels is the evaluation set,
    and the parameters are in the kitchen's store when [train] ends. *)
Theorem train_fits_on_normalised_partitions
    (unfiltered_dataframe : DataFrame) (pair : string)
    (w w1 w2 : World) (filtered : DataFrame * value)
    (tr te : DataFrame) (train_labels test_labels test_weights : value) :
  (∀ msg w, logger_info msg w = (w, Ok tt)) →
  (∀ w, data_cleaning_train w = (w, Ok tt)) →
  filter_features unfiltered_dataframe (training_features_list (dk w))
    (label_list (dk w)) true w = (w1, Ok filtered) →
  make_train_test_datasets filtered.1 filtered.2 w1 = (w2, Ok KitchenDictionary) →
  data_dictionary (dk w2) !! "train_features" = Some (Frame tr) →
  data_dictionary (dk w2) !! "test_features" = Some (Frame te) →
  data_dictionary (dk w2) !! "train_labels" = Some train_labels →
  data_dictionary (dk w2) !! "test_labels" = Some test_labels →
  data_dictionary (dk w2) !! "test_weights" = Some test_weights →
  Pandas.keys te = Pandas.keys tr →
  train unfiltered_dataframe pair w
  = (with_parameters tr
       (with_content KitchenDictionary (normalized (data_dictionary (dk w2)) tr te) w2),
     Classifier_fit
       (CatBoostClassifier {| CatBoost.allow_writing_files := false;
                              CatBoost.loss_function := "MultiClass";
                              CatBoost.early_stopping_rounds := 10 |})
       {| CatBoost.X := Frame (zip_with scale_column tr te);
          CatBoost.y := test_labels;
          CatBoost.sample_weight := test_weights;
          CatBoost.eval_set := (Frame ((λ c, scale_column c c) <$> tr), train_labels) |}).
Proof.
  intros Hlogger Hhook Hfilter Hsplit Htr Hte Hytr Hyte Hwte Hkeys. unfold train.
  rewrite (train_run_to_cleaning _ _ w w1 w2 filtered KitchenDictionary tr te) by done.
  cbn [current holding]. fold (normalized (data_dictionary (dk w2)) tr te).
  set (dd := normalized (data_dictionary (dk w2)) tr te).
  assert (dd !! "train_features" = Some (Frame ((λ c, scale_column c c) <$> tr))) as H1.
  { unfold dd, normalized. rewrite lookup_insert_ne, lookup_insert_eq by done.
    by rewrite standardize_aligned, zip_with_diag. }
  assert (dd !! "test_features" = Some (Frame (zip_with scale_column tr te))) as H2.
  { unfold dd, normalized. rewrite lookup_insert_eq. by rewrite standardize_aligned. }
  assert (dd !! "train_labels" = Some train_labels) as H3
    by (unfold dd, normalized; by rewrite !lookup_insert_ne).
  assert (dd !! "test_labels" = Some test_labels) as H4
    by (unfold dd, normalized; by rewrite !lookup_insert_ne).
  assert (dd !! "test_weights" = Some test_weights) as H5
    by (unfold dd, normalized; by rewrite !lookup_insert_ne).
  rewrite bind_run, Hhook. train_run. cbn [with_parameters with_content dk
    data_dictionary with_data with_data_dictionary].
  train_run. rewrite Hlogger. train_run.
  cbn [with_parameters with_content dk data_dictionary with_data with_data_dictionary].
  train_run. rewrite Hlogger. train_run.
  cbn [with_parameters with_content dk data_dictionary with_data with_data_dictionary].
  unfold fit. train_run.
  destruct (Classifier_fit _ _) as [clf|e]; [|done].
  rewrite ret_run. cbv beta iota. by rewrite bind_run, Hlogger.
Qed.

End TrainFacts.

Lemma train_fits_dictionary_after_cleaning_witness :
  train (H := Example.host) (H0 := ExampleTraining.keeping_host)
    ExampleTraining.unfiltered_dataframe "BTC/USDT" ExampleTraining.world
  = fit (H := Example.host)
      (normalized Example.dictionary Example.train_features Example.test_features)
      ExampleTraining.trained_world.
Proof.
  apply (train_fits_dictionary_after_cleaning
           (H := Example.host) (H0 := ExampleTraining.keeping_host)
           ExampleTraining.unfiltered_dataframe "BTC/USDT"
           ExampleTraining.world ExampleTraining.world ExampleTraining.split_world
           ExampleTraining.trained_world
           (ExampleTraining.unfiltered_dataframe, Labels []) KitchenDictionary
           Example.train_features Example.test_features
           [("a", [F64.of_Z (-1); F64.of_Z 1]); ("b", [F64.nan; F64.nan])]
           [("a", [F64.of_Z (-1); F64.of_Z 1]); ("b", [F64.nan; F64.nan])]);
    reflexivity.
Defined.

Lemma train_needs_kitchen_dictionary_witness :
  train (H := Example.host) (H0 := ExampleTraining.forgetful_host)
    ExampleTraining.unfiltered_dataframe "BTC/USDT" ExampleTraining.world
  = (with_parameters Example.train_features ExampleTraining.world,
     Raise (KeyError "train_features")).
Proof.
  apply (train_needs_kitchen_dictionary
           (H := Example.host) (H0 := ExampleTraining.forgetful_host)
           ExampleTraining.unfiltered_dataframe "BTC/USDT"
           ExampleTraining.world ExampleTraining.world ExampleTraining.world
           (with_parameters Example.train_features ExampleTraining.world)
           (ExampleTraining.unfiltered_dataframe, Labels [])
           (OwnDictionary Example.dictionary)
           Example.train_features Example.test_features);
    reflexivity.
Defined.

Lemma train_stops_without_test_features_witness :
  train (H := Example.host) (H0 := ExampleTraining.incomplete_host)
    ExampleTraining.unfiltered_dataframe "BTC/USDT" ExampleTraining.world
  = (with_content KitchenDictionary
       (<["train_features" :=
            Frame (standardize Example.train_features
                     (Pandas.min Example.train_features)
                     (Pandas.max Example.train_features))]>
          (delete "test_features" Example.dictionary))
       ExampleTraining.incomplete_world,
     Raise (KeyError "test_features")).
Proof.
  apply (train_stops_without_test_features
           (H := Example.host) (H0 := ExampleTraining.incomplete_host)
           ExampleTraining.unfiltered_dataframe "BTC/USDT"
           ExampleTraining.world ExampleTraining.world ExampleTraining.incomplete_world
           (ExampleTraining.unfiltered_dataframe, Labels [])
           KitchenDictionary Example.train_features);
    reflexivity.
Defined.

Lemma train_fits_on_normalised_partitions_witness :
  train (H := Example.host) (H0 := ExampleTraining.keeping_host)
    ExampleTraining.unfiltered_dataframe "BTC/USDT" ExampleTraining.world
  = (ExampleTraining.trained_world,
     Ok ({| CatBoost.allow_writing_files := false;
            CatBoost.loss_function := "MultiClass";
            CatBoost.early_stopping_rounds := 10 |},
         Some {| CatBoost.X :=
                   Frame (zip_with scale_column Example.train_features
                            Example.test_features);
                 CatBoost.y := Example.test_labels;
                 CatBoost.sample_weight := Example.test_weights;
                 CatBoost.eval_set :=
                   (Frame ((λ c, scale_column c c) <$> Example.train_features),
                    Example.train_labels) |})).
Proof.
  apply (train_fits_on_normalised_partitions
           (H := Example.host) (H0 := ExampleTraining.keeping_host)
           ExampleTraining.unfiltered_dataframe "BTC/USDT"
           ExampleTraining.world ExampleTraining.world ExampleTraining.split_world
           (ExampleTraining.unfiltered_dataframe, Labels [])
           Example.train_features Example.test_features
           Example.train_labels Example.test_labels Example.test_weights);
    reflexivity.
Defined.
